(** * Soccer Field Booking System: the request handlers of [main.py]

    A shallow embedding of the handlers of [src/main.py] over the tables of
    [src/app/models/models.py] and the enumerations of
    [src/app/schemas/schemas.py].

    - A table is the list of its rows in storage order; [Query.first] of a
      filtered query is the first row that passes the filter.
    - A handler is a function from the store to an outcome and the store it
      leaves behind.  A handler that raises before its [db.commit()] leaves
      the store as it found it.
    - [datetime.utcnow()] is read from the caller: every handler that stamps
      a row takes the clock readings as arguments.
    - Dates and timestamps are integers (day and microsecond ordinals), the
      prices of the seed table are the integers the source writes.
    - The integers of a request ([time_slot_id], [booking_id], [skip],
      [limit], the inventory counts) are Python integers and reach the
      storage engine unvalidated.  Which of them the engine takes is the
      engine's own, and the engine ([app.core.database]) is not among the
      sources: every handler that hands one over takes the engine's answer
      as an argument, and a value the engine refuses ends the request in
      [StorageError] with nothing written. *)

From Stdlib Require Import ZArith List String Bool Lia Permutation.
Import ListNotations.
Local Open Scope string_scope.
Local Open Scope list_scope.
Local Open Scope Z_scope.

(** ** [app/schemas/schemas.py] *)

Module schemas.

(** [class BookingStatus(str, Enum)] *)
Module BookingStatus.
Inductive t := BOOKED | DEPOSIT_PAID | DONE | RESCHEDULED | CANCELLED.

Definition value (s : t) : string :=
  match s with
  | BOOKED => "Booked"
  | DEPOSIT_PAID => "Deposit Paid"
  | DONE => "Done"
  | RESCHEDULED => "Rescheduled"
  | CANCELLED => "Cancelled"
  end.
End BookingStatus.

(** [class UserRole(str, Enum)] *)
Module UserRole.
Inductive t := ADMIN | MANAGER | OWNER.

Definition value (r : t) : string :=
  match r with
  | ADMIN => "admin"
  | MANAGER => "manager"
  | OWNER => "owner"
  end.
End UserRole.

(** [class BookingCreate(BookingBase)] *)
Module BookingCreate.
Record t := mk {
  customer_name : string;
  email : string;
  phone : string;
  booking_date : Z;
  time_slot_id : Z;
  notes : option string
}.
End BookingCreate.

(** [class InventoryCreate(InventoryBase)] *)
Module InventoryCreate.
Record t := mk {
  balls : Z;
  shoes : Z;
  jerseys : Z;
  gloves : Z;
  check_date : Z
}.
End InventoryCreate.

(** [class Token(BaseModel)] *)
Module Token.
Record t := mk {
  access_token : string;
  token_type : string
}.
End Token.

End schemas.

(** ** [app/models/models.py] *)

Module models.

Module TimeSlot.
Record t := mk {
  id : Z;
  shift_name : string;
  start_time : string;
  end_time : string;
  price : Z
}.
End TimeSlot.

Module Booking.
Record t := mk {
  id : Z;
  customer_name : string;
  email : string;
  phone : string;
  booking_date : Z;
  time_slot_id : Z;
  notes : option string;
  status : string;
  created_at : Z;
  updated_at : Z
}.

Definition set_status (b : t) (s : string) (now : Z) : t :=
  mk (id b) (customer_name b) (email b) (phone b) (booking_date b)
     (time_slot_id b) (notes b) s (created_at b) now.
End Booking.

Module User.
Record t := mk {
  id : Z;
  username : string;
  email : string;
  password : string;
  role : string;
  last_login : option Z;
  last_logout : option Z
}.

Definition set_last_login (u : t) (now : Z) : t :=
  mk (id u) (username u) (email u) (password u) (role u) (Some now)
     (last_logout u).
End User.

Module Inventory.
Record t := mk {
  id : Z;
  balls : Z;
  shoes : Z;
  jerseys : Z;
  gloves : Z;
  check_date : Z;
  updated_by : Z
}.
End Inventory.

End models.

(** ** The store: the four tables behind a [Session] *)

Record Session := mkSession {
  time_slots : list models.TimeSlot.t;
  bookings : list models.Booking.t;
  users : list models.User.t;
  inventory : list models.Inventory.t
}.

Definition empty_store : Session := mkSession [] [] [] [].

(** The primary key handed to a row on insert: one more than the largest
    key of the table (1 on an empty table). *)
Definition next_id (ids : list Z) : Z := 1 + fold_right Z.max 0 ids.

(** [raise HTTPException(status_code=..., detail=...)] *)
Record HTTPException := mkHTTPException {
  status_code : Z;
  detail : string
}.

(** What a request ends in: the handler's return value, the [HTTPException]
    it raised, or an error of the storage engine that no handler catches. *)
Inductive outcome (A : Type) : Type :=
| Ok (a : A)
| Raise (e : HTTPException)
| StorageError.
Arguments Ok {A} a.
Arguments Raise {A} e.
Arguments StorageError {A}.

Definition handler (A : Type) : Type := Session -> outcome A * Session.

Definition HTTP_401_UNAUTHORIZED : Z := 401.

(** [x in [...]] on strings *)
Definition str_in (x : string) (l : list string) : bool :=
  existsb (String.eqb x) l.

(** The role lists of the handlers. A role is the string of the [role] column;
    a member of [schemas.UserRole] compares equal to its value. *)
Definition staff_roles : list string :=
  map schemas.UserRole.value
    [schemas.UserRole.ADMIN; schemas.UserRole.MANAGER; schemas.UserRole.OWNER].

Definition inventory_roles : list string :=
  map schemas.UserRole.value [schemas.UserRole.ADMIN; schemas.UserRole.MANAGER].

(** The statuses that keep a slot taken:
    [[schemas.BookingStatus.BOOKED, schemas.BookingStatus.DEPOSIT_PAID]] *)
Definition active_statuses : list string :=
  map schemas.BookingStatus.value
    [schemas.BookingStatus.BOOKED; schemas.BookingStatus.DEPOSIT_PAID].

(** The [time_slot = relationship("TimeSlot")] of a booking: the slot its
    foreign key points to. *)
Definition Booking_time_slot (db : Session) (b : models.Booking.t)
  : option models.TimeSlot.t :=
  find (fun t => models.TimeSlot.id t =? models.Booking.time_slot_id b)
       (time_slots db).

(** ** [create_booking] *)

(** The filter of the double-booking query. *)
Definition takes_slot (booking_date time_slot_id : Z) (b : models.Booking.t)
  : bool :=
  (models.Booking.booking_date b =? booking_date)
  && (models.Booking.time_slot_id b =? time_slot_id)
  && str_in (models.Booking.status b) active_statuses.

(** The [models.Booking] row built from [booking.dict()], once flushed: the
    key is fresh, the status is the column default, the two timestamps are
    the two readings of the clock the column defaults make. *)
Definition new_booking (db : Session) (booking : schemas.BookingCreate.t)
    (created updated : Z) : models.Booking.t :=
  models.Booking.mk
    (next_id (map models.Booking.id (bookings db)))
    (schemas.BookingCreate.customer_name booking)
    (schemas.BookingCreate.email booking)
    (schemas.BookingCreate.phone booking)
    (schemas.BookingCreate.booking_date booking)
    (schemas.BookingCreate.time_slot_id booking)
    (schemas.BookingCreate.notes booking)
    (schemas.BookingStatus.value schemas.BookingStatus.BOOKED)
    created updated.

Definition add_booking (db : Session) (b : models.Booking.t) : Session :=
  mkSession (time_slots db) (bookings db ++ [b]) (users db) (inventory db).

(** [takes_key] tells whether the engine takes an integer as the parameter of
    a [WHERE ... id = ?].  A key that a row of the table carries is one the
    engine took when it stored the row, so the answer matters only when the
    lookup finds no row: then the request ends in 404 for a key the engine
    takes and in the engine's error for one it does not. *)
Definition create_booking (takes_key : Z -> bool)
    (booking : schemas.BookingCreate.t)
    (created updated : Z) : handler models.Booking.t :=
  fun db =>
    match find (fun t => models.TimeSlot.id t
                         =? schemas.BookingCreate.time_slot_id booking)
               (time_slots db) with
    | None =>
      if takes_key (schemas.BookingCreate.time_slot_id booking)
      then (Raise (mkHTTPException 404 "Time slot not found"), db)
      else (StorageError, db)
    | Some time_slot =>
      match find (takes_slot (schemas.BookingCreate.booking_date booking)
                             (schemas.BookingCreate.time_slot_id booking))
                 (bookings db) with
      | Some existing_booking =>
        (Raise (mkHTTPException 400
           "This time slot is already booked for the selected date"), db)
      | None =>
        let db_booking := new_booking db booking created updated in
        (Ok db_booking, add_booking db db_booking)
      end
    end.

(** ** [init_time_slots] *)

(** One entry of the [slots] list of [init_time_slots]. *)
Record slot_dict := mk_slot {
  shift_name : string;
  start_time : string;
  end_time : string;
  price : Z
}.

Definition slots : list slot_dict :=
  [ mk_slot "Shift 1" "06:00" "07:30" 500000;
    mk_slot "Shift 2" "07:30" "09:00" 500000;
    mk_slot "Shift 3" "09:00" "10:30" 400000;
    mk_slot "Shift 4" "10:30" "12:00" 400000;
    mk_slot "Shift 5" "13:00" "14:30" 400000;
    mk_slot "Shift 6" "14:30" "16:00" 400000;
    mk_slot "Shift 7" "16:00" "17:30" 600000;
    mk_slot "Shift 8" "18:30" "20:00" 800000;
    mk_slot "Shift 9" "20:00" "21:30" 800000;
    mk_slot "Shift 10" "21:30" "23:00" 800000 ].

Definition has_shift (name : string) (t : models.TimeSlot.t) : bool :=
  String.eqb (models.TimeSlot.shift_name t) name.

Definition add_time_slot (db : Session) (slot : slot_dict) : Session :=
  mkSession
    (time_slots db ++
       [models.TimeSlot.mk (next_id (map models.TimeSlot.id (time_slots db)))
          (shift_name slot) (start_time slot) (end_time slot) (price slot)])
    (bookings db) (users db) (inventory db).

(** The body of the [for slot in slots] loop. *)
Definition seed_slot (db : Session) (slot : slot_dict) : Session :=
  match find (has_shift (shift_name slot)) (time_slots db) with
  | Some db_slot => db
  | None => add_time_slot db slot
  end.

Definition init_time_slots (db : Session) : Session :=
  fold_left seed_slot slots db.

(** [init_time_slots] above lets each query of the loop see the rows added
    before it (a session that flushes before it queries).  A session that
    does not flush until [db.commit()] runs every query against the table as
    the loop found it and inserts the pending rows at the end; this is that
    loop.  The two agree ([init_time_slots_deferred_eq]). *)
Definition not_seeded (db : Session) (slot : slot_dict) : bool :=
  match find (has_shift (shift_name slot)) (time_slots db) with
  | Some db_slot => false
  | None => true
  end.

Definition init_time_slots_deferred (db : Session) : Session :=
  fold_left add_time_slot (filter (not_seeded db) slots) db.

(** ** The role check shared by the admin handlers *)

Definition not_authorized {A : Type} : outcome A :=
  Raise (mkHTTPException 403 "Not authorized").

(** ** [update_booking_status] *)

(** The [UPDATE bookings SET status=?, updated_at=? WHERE bookings.id = ?]
    that the commit issues for the row the handler changed. *)
Definition update_status_where_id (pk : Z) (s : string) (now : Z)
    (rows : list models.Booking.t) : list models.Booking.t :=
  map (fun b => if models.Booking.id b =? pk
                then models.Booking.set_status b s now else b) rows.

Definition status_updated : string := "Booking status updated successfully".

(** As in [create_booking], [takes_key] is asked only when no booking carries
    the id: the request then ends in 404 for an id the engine takes as a key
    and in the engine's error, with nothing written, for one it does not. *)

Definition update_booking_status (takes_key : Z -> bool) (booking_id : Z)
    (status_update : schemas.BookingStatus.t)
    (current_user : models.User.t) (now : Z) : handler string :=
  fun db =>
    if negb (str_in (models.User.role current_user) staff_roles)
    then (not_authorized, db)
    else
      match find (fun b => models.Booking.id b =? booking_id) (bookings db) with
      | None =>
        if takes_key booking_id
        then (Raise (mkHTTPException 404 "Booking not found"), db)
        else (StorageError, db)
      | Some booking =>
        (Ok status_updated,
         mkSession (time_slots db)
           (update_status_where_id (models.Booking.id booking)
              (schemas.BookingStatus.value status_update) now (bookings db))
           (users db) (inventory db))
      end.

(** ** [create_inventory_check] *)

Definition new_inventory (db : Session) (inv : schemas.InventoryCreate.t)
    (updated_by : Z) : models.Inventory.t :=
  models.Inventory.mk
    (next_id (map models.Inventory.id (inventory db)))
    (schemas.InventoryCreate.balls inv)
    (schemas.InventoryCreate.shoes inv)
    (schemas.InventoryCreate.jerseys inv)
    (schemas.InventoryCreate.gloves inv)
    (schemas.InventoryCreate.check_date inv)
    updated_by.

(** [takes_int] tells whether the engine stores an integer in an [Integer]
    column.  The four counts of the request are written as they come; the
    [INSERT] of a count the engine does not take fails and stores nothing. *)
Definition takes_counts (takes_int : Z -> bool)
    (inv : schemas.InventoryCreate.t) : bool :=
  takes_int (schemas.InventoryCreate.balls inv)
  && takes_int (schemas.InventoryCreate.shoes inv)
  && takes_int (schemas.InventoryCreate.jerseys inv)
  && takes_int (schemas.InventoryCreate.gloves inv).

Definition create_inventory_check (takes_int : Z -> bool)
    (inv : schemas.InventoryCreate.t)
    (current_user : models.User.t) : handler models.Inventory.t :=
  fun db =>
    if negb (str_in (models.User.role current_user) inventory_roles)
    then (not_authorized, db)
    else if negb (takes_counts takes_int inv)
    then (StorageError, db)
    else
      let db_inventory := new_inventory db inv (models.User.id current_user) in
      (Ok db_inventory,
       mkSession (time_slots db) (bookings db) (users db)
         (inventory db ++ [db_inventory])).

(** ** [get_latest_inventory] *)

(** [order_by(models.Inventory.check_date.desc())]: a sort, latest check
    first.  The order among rows of one date is the engine's; here they keep
    their storage order, and no property below depends on that. *)
Fixpoint insert_desc (r : models.Inventory.t) (l : list models.Inventory.t)
  : list models.Inventory.t :=
  match l with
  | [] => [r]
  | x :: t =>
    if models.Inventory.check_date r <? models.Inventory.check_date x
    then x :: insert_desc r t
    else r :: x :: t
  end.

Definition order_by_check_date_desc (rows : list models.Inventory.t)
  : list models.Inventory.t :=
  fold_right insert_desc [] rows.

Definition get_latest_inventory (current_user : models.User.t)
  : handler models.Inventory.t :=
  fun db =>
    if negb (str_in (models.User.role current_user) staff_roles)
    then (not_authorized, db)
    else
      match hd_error (order_by_check_date_desc (inventory db)) with
      | None => (Raise (mkHTTPException 404 "No inventory records found"), db)
      | Some latest_inventory => (Ok latest_inventory, db)
      end.

(** ** The handlers that lean on [app.core.auth] and on the storage engine *)

(** [OAuth2PasswordRequestForm]: the two fields [login] reads. *)
Module OAuth2PasswordRequestForm.
Record t := mk {
  username : string;
  password : string
}.
End OAuth2PasswordRequestForm.

(** A row count that [OFFSET] and [LIMIT] take as it is. *)
Definition is_count (n : Z) : bool := (0 <=? n) && (n <? 2 ^ 63).

(** [timedelta(minutes=m)], in seconds. *)
Definition timedelta_minutes (m : Z) : Z := m * 60.

Section Handlers.

(** [app.core.auth] is imported by [main.py] and is not among the sources:
    its password check, its token constructor and its expiry constant are
    taken as given. *)
Variable verify_password : string -> string -> bool.
Variable create_access_token : list (string * string) -> Z -> string.
Variable ACCESS_TOKEN_EXPIRE_MINUTES : Z.

(** [OFFSET] and [LIMIT] count rows: from 0 up to, and not including,
    [2 ^ 63] they mean what SQL says.  What a count outside that range does
    is the storage engine's own business (one engine reads a negative
    [LIMIT] as no limit, another rejects the statement; a count of [2 ^ 63]
    or more does not fit a 64-bit integer), and the engine
    ([app.core.database]) is not among the sources: [engine_window] is what
    it answers then, [None] for a statement that fails. *)
Variable engine_window :
  Z -> Z -> list models.Booking.t -> option (list models.Booking.t).

(** *** [login] *)

(** The [UPDATE users SET last_login=? WHERE users.id = ?] of the commit. *)
Definition update_last_login_where_id (pk : Z) (now : Z)
    (rows : list models.User.t) : list models.User.t :=
  map (fun u => if models.User.id u =? pk
                then models.User.set_last_login u now else u) rows.

Definition login (form_data : OAuth2PasswordRequestForm.t) (now : Z)
  : handler schemas.Token.t :=
  fun db =>
    let unauthorized :=
      Raise (mkHTTPException HTTP_401_UNAUTHORIZED
               "Incorrect email or password") in
    match find (fun u => String.eqb (models.User.email u)
                           (OAuth2PasswordRequestForm.username form_data))
               (users db) with
    | None => (unauthorized, db)
    | Some user =>
      if negb (verify_password (OAuth2PasswordRequestForm.password form_data)
                 (models.User.password user))
      then (unauthorized, db)
      else
        let access_token_expires :=
          timedelta_minutes ACCESS_TOKEN_EXPIRE_MINUTES in
        let access_token :=
          create_access_token [("sub", models.User.email user)]
            access_token_expires in
        (Ok (schemas.Token.mk access_token "bearer"),
         mkSession (time_slots db) (bookings db)
           (update_last_login_where_id (models.User.id user) now (users db))
           (inventory db))
    end.

(** *** [get_all_bookings] *)

(** [.offset(skip).limit(limit).all()] *)
Definition offset_limit_all (skip limit : Z) (rows : list models.Booking.t)
  : outcome (list models.Booking.t) :=
  if is_count skip && is_count limit
  then Ok (firstn (Z.to_nat limit) (skipn (Z.to_nat skip) rows))
  else
    match engine_window skip limit rows with
    | Some page => Ok page
    | None => StorageError
    end.

(** [skip: int = 0] and [limit: int = 100]: an omitted query parameter is
    [None] here. *)
Definition get_all_bookings (skip limit : option Z)
    (current_user : models.User.t) : handler (list models.Booking.t) :=
  fun db =>
    let skip := match skip with Some n => n | None => 0 end in
    let limit := match limit with Some n => n | None => 100 end in
    if negb (str_in (models.User.role current_user) staff_roles)
    then (not_authorized, db)
    else (offset_limit_all skip limit (bookings db), db).

End Handlers.

(** ** The double-booking invariant and the reachable stores *)

(** Two bookings of one date and one slot that both keep the slot taken. *)
Definition clash (b1 b2 : models.Booking.t) : bool :=
  str_in (models.Booking.status b1) active_statuses
  && takes_slot (models.Booking.booking_date b1)
                (models.Booking.time_slot_id b1) b2.

(** No two rows of the table clash. *)
Fixpoint no_double_booking (rows : list models.Booking.t) : bool :=
  match rows with
  | [] => true
  | b :: rest => forallb (fun b' => negb (clash b b')) rest
                 && no_double_booking rest
  end.

(** Users are created out of band: a fresh deployment holds the users that
    were provisioned and nothing else. *)
Definition provisioned (us : list models.User.t) : Session :=
  mkSession [] [] us [].

Section Reachable.

Variable takes_key : Z -> bool.
Variable takes_int : Z -> bool.
Variable verify_password : string -> string -> bool.
Variable create_access_token : list (string * string) -> Z -> string.
Variable ACCESS_TOKEN_EXPIRE_MINUTES : Z.

(** One request (or one start of the process) that may write to the store.
    The [current_user] of an admin handler is a row of the users table. *)
Inductive step : Session -> Session -> Prop :=
| step_startup db :
    step db (init_time_slots db)
| step_login form_data now db :
    step db (snd (login verify_password create_access_token
                    ACCESS_TOKEN_EXPIRE_MINUTES form_data now db))
| step_create_booking booking created updated db :
    step db (snd (create_booking takes_key booking created updated db))
| step_update_booking_status booking_id status_update current_user now db :
    In current_user (users db) ->
    step db (snd (update_booking_status takes_key booking_id status_update
                    current_user now db))
| step_create_inventory_check inv current_user db :
    In current_user (users db) ->
    step db (snd (create_inventory_check takes_int inv current_user db)).

Inductive reachable (init : Session) : Session -> Prop :=
| reachable_init : reachable init init
| reachable_step db db' :
    reachable init db -> step db db' -> reachable init db'.

End Reachable.

(** ** Sample data *)

(** A storage engine whose integers are 64-bit. *)
Definition int64 (n : Z) : bool := (- 2 ^ 63 <=? n) && (n <? 2 ^ 63).

Definition admin_user : models.User.t :=
  models.User.mk 1 "ada" "ada@example.com" "hash-ada" "admin" None None.

Definition owner_user : models.User.t :=
  models.User.mk 2 "oli" "oli@example.com" "hash-oli" "owner" None None.

Definition guest_user : models.User.t :=
  models.User.mk 3 "gus" "gus@example.com" "hash-gus" "guest" None None.

(** The store of a fresh deployment after its first start. *)
Definition seeded : Session :=
  init_time_slots (provisioned [admin_user; owner_user; guest_user]).

(** 2024-06-01 as a day ordinal, and a request for slot 1 on that day. *)
Definition june_first : Z := 739038.

Definition booking_request : schemas.BookingCreate.t :=
  schemas.BookingCreate.mk "Bea" "bea@example.com" "0901" june_first 1 None.

(** ** Shift names in the table *)

(** Some time slot carries the shift name. *)
Definition shift_present (name : string) (db : Session) : Prop :=
  exists t, In t (time_slots db) /\ models.TimeSlot.shift_name t = name.

(** ** Outcomes by status code *)

(** The outcome is an [HTTPException] with the given status code. *)
Definition raises {A : Type} (code : Z) (o : outcome A) : Prop :=
  exists e, o = Raise e /\ status_code e = code.

(** The largest check date of a table is [d]: some row has it, none is later. *)
Definition max_check_date (rows : list models.Inventory.t) (d : Z) : Prop :=
  (exists r, In r rows /\ models.Inventory.check_date r = d)
  /\ forall r, In r rows -> models.Inventory.check_date r <= d.

(** The first booking of [booking_request] is cancelled, the slot is booked
    again, and the first booking is then set back to Booked. *)
Definition booked_once : Session :=
  snd (create_booking int64 booking_request 100 100 seeded).

Definition cancelled_once : Session :=
  snd (update_booking_status int64 1 schemas.BookingStatus.CANCELLED
         admin_user 200 booked_once).

Definition booked_again : Session :=
  snd (create_booking int64 booking_request 300 300 cancelled_once).

Definition double_booked : Session :=
  snd (update_booking_status int64 1 schemas.BookingStatus.BOOKED admin_user
         400 booked_again).

(** Three inventory checks, recorded out of date order. *)
Definition stocked : Session :=
  snd (create_inventory_check int64
         (schemas.InventoryCreate.mk 10 4 12 3 739040) admin_user
    (snd (create_inventory_check int64
            (schemas.InventoryCreate.mk 9 4 12 2 739050) admin_user
       (snd (create_inventory_check int64
               (schemas.InventoryCreate.mk 8 5 11 2 739045)
               admin_user seeded))))).

(** A stand-in for [app.core.auth]: the stored hash of a password is the
    password behind "hash-", and a token spells out its subject. *)
Definition sample_verify_password (plain hashed : string) : bool :=
  String.eqb ("hash-" ++ plain)%string hashed.

Definition sample_create_access_token (data : list (string * string))
    (expires_delta : Z) : string :=
  match data with
  | (_, subject) :: _ => ("token:" ++ subject)%string
  | [] => "token:"
  end.

(** A storage engine that reads a negative [OFFSET] as 0 and a negative
    [LIMIT] as no limit, and fails on a count that is not a 64-bit integer. *)
Definition lenient_window (skip limit : Z) (rows : list models.Booking.t)
  : option (list models.Booking.t) :=
  if int64 skip && int64 limit
  then
    let rest := skipn (Z.to_nat skip) rows in
    Some (if limit <? 0 then rest else firstn (Z.to_nat limit) rest)
  else None.

(** A storage engine that rejects every [OFFSET] or [LIMIT] outside
    [0 .. 2 ^ 63 - 1]. *)
Definition strict_window (skip limit : Z) (rows : list models.Booking.t)
  : option (list models.Booking.t) := None.

(** ** [get_time_slots] and [startup_event] *)

(** [return db.query(models.TimeSlot).all()]: public, no role check. *)
Definition get_time_slots : handler (list models.TimeSlot.t) :=
  fun db => (Ok (time_slots db), db).

(** [db = SessionLocal()], [init_time_slots(db)], then [db.close()]. *)
Definition startup_event (db : Session) : Session := init_time_slots db.

(** The columns of a time slot that come from its [slots] entry. *)
Definition slot_fields (t : models.TimeSlot.t) : slot_dict :=
  mk_slot (models.TimeSlot.shift_name t) (models.TimeSlot.start_time t)
          (models.TimeSlot.end_time t) (models.TimeSlot.price t).

(** ** What the handlers leave of a row *)

(** The columns of a booking that no handler assigns after the insert. *)
Definition booking_core (b : models.Booking.t)
  : Z * string * string * string * Z * Z * option string * Z :=
  (models.Booking.id b, models.Booking.customer_name b,
   models.Booking.email b, models.Booking.phone b,
   models.Booking.booking_date b, models.Booking.time_slot_id b,
   models.Booking.notes b, models.Booking.created_at b).

(** The columns of a user that no handler assigns. *)
Definition user_core (u : models.User.t)
  : Z * string * string * string * string * option Z :=
  (models.User.id u, models.User.username u, models.User.email u,
   models.User.password u, models.User.role u, models.User.last_logout u).

(** The string is the value of a member of [schemas.BookingStatus]. *)
Definition is_booking_status (s : string) : Prop :=
  exists m, schemas.BookingStatus.value m = s.

(** The [user = relationship("User")] of an inventory row resolves. *)
Definition recorded_by_user (db : Session) (r : models.Inventory.t) : Prop :=
  exists u, In u (users db)
            /\ models.User.id u = models.Inventory.updated_by r.

(** A manager, a second request for another slot, and a check to record. *)
Definition manager_user : models.User.t :=
  models.User.mk 4 "mia" "mia@example.com" "hash-mia" "manager" None None.

Definition other_request : schemas.BookingCreate.t :=
  schemas.BookingCreate.mk "Cal" "cal@example.com" "0902" june_first 2
    (Some "bring bibs").

Definition late_check : schemas.InventoryCreate.t :=
  schemas.InventoryCreate.mk 7 4 12 2 739060.



(** [booked_again] after the admin records [late_check]. *)
Definition audited : Session :=
  snd (create_inventory_check int64 late_check admin_user booked_again).

(** * Properties *)

(** ** Lookups *)

Lemma str_in_In (x : string) (l : list string) :
  str_in x l = true <-> In x l.
Proof.
  unfold str_in. rewrite existsb_exists. split.
  - intros [y [Hy Heq]]. apply String.eqb_eq in Heq. now subst.
  - intros H. exists x. split; [assumption | apply String.eqb_refl].
Qed.

Lemma str_in_active (s : string) :
  str_in s active_statuses = true <-> s = "Booked" \/ s = "Deposit Paid".
Proof.
  rewrite str_in_In. simpl. intuition congruence.
Qed.

Lemma takes_slot_true (d s : Z) (b : models.Booking.t) :
  takes_slot d s b = true <->
  models.Booking.booking_date b = d /\ models.Booking.time_slot_id b = s
  /\ (models.Booking.status b = "Booked"
      \/ models.Booking.status b = "Deposit Paid").
Proof.
  unfold takes_slot. rewrite !andb_true_iff, !Z.eqb_eq, str_in_active.
  tauto.
Qed.

Lemma find_None_iff {A : Type} (p : A -> bool) (l : list A) :
  find p l = None <-> forall x, In x l -> p x = false.
Proof.
  split.
  - apply find_none.
  - induction l as [|a l IH]; simpl; intros H; [reflexivity|].
    rewrite (H a (or_introl eq_refl)). apply IH.
    intros x Hx. apply H. now right.
Qed.

Lemma find_Some_ex {A : Type} (p : A -> bool) (l : list A) :
  (exists x, In x l /\ p x = true) -> exists y, find p l = Some y.
Proof.
  intros [x [Hin Hp]]. destruct (find p l) eqn:E; [eauto|].
  rewrite (find_none _ _ E x Hin) in Hp. discriminate.
Qed.

Lemma find_app {A : Type} (p : A -> bool) (l1 l2 : list A) :
  find p (l1 ++ l2)
  = match find p l1 with Some x => Some x | None => find p l2 end.
Proof.
  induction l1 as [|a l1 IH]; simpl; [reflexivity|].
  destruct (p a); [reflexivity | exact IH].
Qed.

(** ** C1: [create_booking] *)


(** ** C3: [login] *)

Section LoginProperties.

Variable verify_password : string -> string -> bool.
Variable create_access_token : list (string * string) -> Z -> string.
Variable ACCESS_TOKEN_EXPIRE_MINUTES : Z.

Let login_ :=
  login verify_password create_access_token ACCESS_TOKEN_EXPIRE_MINUTES.

(** C3. [login] raises 401 exactly when no user has the submitted email or
    the password does not verify against the hash stored for the user the
    query returns; a raised request leaves the whole store, hence every
    [last_login], as it was.  Otherwise the returned token is the one
    [create_access_token] makes from [{"sub": user.email}], the matched
    user's [last_login] becomes the clock reading, every user with another
    key keeps its row and the other tables keep theirs. *)
Theorem login_spec :
  forall (form_data : OAuth2PasswordRequestForm.t) (now : Z) (db : Session),
    let email := OAuth2PasswordRequestForm.username form_data in
    let pw := OAuth2PasswordRequestForm.password form_data in
    let matched :=
      find (fun u => String.eqb (models.User.email u) email) (users db) in
    let unauthorized :=
      Raise (mkHTTPException 401 "Incorrect email or password") in
    (fst (login_ form_data now db) = unauthorized <->
       (forall u, In u (users db) -> models.User.email u <> email)
       \/ (exists user, matched = Some user
                        /\ verify_password pw (models.User.password user)
                           = false))
    /\ (forall e, fst (login_ form_data now db) = Raise e ->
          e = mkHTTPException 401 "Incorrect email or password"
          /\ snd (login_ form_data now db) = db)
    /\ (forall user,
          matched = Some user ->
          verify_password pw (models.User.password user) = true ->
          In user (users db)
          /\ models.User.email user = email
          /\ fst (login_ form_data now db)
             = Ok (schemas.Token.mk
                     (create_access_token [("sub", models.User.email user)]
                        (timedelta_minutes ACCESS_TOKEN_EXPIRE_MINUTES))
                     "bearer")
          /\ In (models.User.set_last_login user now)
                (users (snd (login_ form_data now db)))
          /\ (forall u, In u (users (snd (login_ form_data now db))) ->
                models.User.id u = models.User.id user ->
                models.User.last_login u = Some now)
          /\ (forall u, In u (users db) ->
                models.User.id u <> models.User.id user ->
                In u (users (snd (login_ form_data now db))))
          /\ List.length (users (snd (login_ form_data now db)))
             = List.length (users db)
          /\ time_slots (snd (login_ form_data now db)) = time_slots db
          /\ bookings (snd (login_ form_data now db)) = bookings db
          /\ inventory (snd (login_ form_data now db)) = inventory db).
Proof.
  intros form_data now db email pw matched unauthorized.
  unfold login_, login. fold email pw matched.
  change HTTP_401_UNAUTHORIZED with 401. fold unauthorized.
  destruct matched as [user|] eqn:Em.
  - destruct (verify_password pw (models.User.password user)) eqn:Ev; simpl.
    + split; [|split].
      * split; [discriminate|]. intros [Hno | [user' [Hu Hv]]].
        -- apply find_some in Em. destruct Em as [Hin Heq].
           apply String.eqb_eq in Heq. elim (Hno user Hin Heq).
        -- inversion Hu; subst user'. congruence.
      * discriminate.
      * intros user' Hu _. inversion Hu; subst user'; clear Hu.
        pose proof (find_some _ _ Em) as [Hin Heq].
        apply String.eqb_eq in Heq.
        unfold update_last_login_where_id.
        repeat split; try assumption; try reflexivity.
        -- apply in_map_iff. exists user. rewrite Z.eqb_refl. tauto.
        -- intros u Hu Hid. apply in_map_iff in Hu.
           destruct Hu as [u0 [Hu0 _]].
           destruct (models.User.id u0 =? models.User.id user) eqn:E;
             subst u; [reflexivity|].
           apply Z.eqb_neq in E. contradiction.
        -- intros u Hu Hid. apply in_map_iff. exists u.
           apply Z.eqb_neq in Hid. rewrite Hid. tauto.
        -- apply List.length_map.
    + split; [|split].
      * split; [|reflexivity]. intros _. right. exists user. tauto.
      * intros e He. inversion He. split; reflexivity.
      * intros user' Hu Hv. inversion Hu; subst user'. congruence.
  - simpl. split; [|split].
    + split; [|reflexivity]. intros _. left. intros u Hin Heq.
      pose proof (find_none _ _ Em u Hin) as Hf. simpl in Hf.
      apply String.eqb_neq in Hf. contradiction.
    + intros e He. inversion He. split; reflexivity.
    + discriminate.
Qed.

End LoginProperties.

(** ** C4: [init_time_slots] *)

Lemma has_shift_find (name : string) (db : Session) :
  shift_present name db <->
  exists t, find (has_shift name) (time_slots db) = Some t.
Proof.
  unfold shift_present, has_shift. split.
  - intros [t [Hin Hn]]. apply find_Some_ex. exists t.
    split; [assumption | now apply String.eqb_eq].
  - intros [t Hf]. apply find_some in Hf. exists t.
    split; [tauto | now apply String.eqb_eq].
Qed.

(** A seed whose shift name is in the table is skipped. *)
Lemma seed_slot_present (db : Session) (slot : slot_dict) :
  shift_present (shift_name slot) db -> seed_slot db slot = db.
Proof.
  intros H. apply has_shift_find in H. destruct H as [t Ht].
  unfold seed_slot. now rewrite Ht.
Qed.

(** A seed whose shift name is not in the table is appended. *)
Lemma seed_slot_absent (db : Session) (slot : slot_dict) :
  ~ shift_present (shift_name slot) db ->
  seed_slot db slot = add_time_slot db slot.
Proof.
  intros H. unfold seed_slot.
  destruct (find _ (time_slots db)) as [t|] eqn:E; [|reflexivity].
  exfalso. apply H, has_shift_find. eauto.
Qed.

Lemma shift_present_dec (name : string) (db : Session) :
  shift_present name db \/ ~ shift_present name db.
Proof.
  destruct (find (has_shift name) (time_slots db)) as [t|] eqn:E.
  - left. apply has_shift_find. eauto.
  - right. intros H. apply has_shift_find in H. destruct H as [t H].
    congruence.
Qed.

Lemma seed_slot_keeps (db : Session) (slot : slot_dict) (name : string) :
  shift_present name db -> shift_present name (seed_slot db slot).
Proof.
  intros [t [Hin Hn]]. unfold seed_slot.
  destruct (find _ (time_slots db)); [now exists t|].
  exists t. simpl. split; [apply in_or_app; now left | assumption].
Qed.

Lemma seed_slot_adds (db : Session) (slot : slot_dict) :
  shift_present (shift_name slot) (seed_slot db slot).
Proof.
  destruct (shift_present_dec (shift_name slot) db) as [H|H].
  - now rewrite seed_slot_present.
  - rewrite seed_slot_absent by assumption.
    eexists. simpl. split; [apply in_or_app; right; left; reflexivity|].
    reflexivity.
Qed.

Lemma fold_seed_keeps (l : list slot_dict) (db : Session) (name : string) :
  shift_present name db -> shift_present name (fold_left seed_slot l db).
Proof.
  revert db. induction l as [|s l IH]; simpl; intros db H; [assumption|].
  apply IH. now apply seed_slot_keeps.
Qed.

Lemma fold_seed_adds (l : list slot_dict) (db : Session) :
  forall s, In s l -> shift_present (shift_name s) (fold_left seed_slot l db).
Proof.
  revert db. induction l as [|a l IH]; simpl; intros db s Hs; [contradiction|].
  destruct Hs as [<-|Hs].
  - apply fold_seed_keeps, seed_slot_adds.
  - now apply IH.
Qed.

Lemma fold_seed_fixed (l : list slot_dict) (db : Session) :
  (forall s, In s l -> shift_present (shift_name s) db) ->
  fold_left seed_slot l db = db.
Proof.
  induction l as [|a l IH]; simpl; intros H; [reflexivity|].
  rewrite seed_slot_present by (apply H; now left).
  apply IH. intros s Hs. apply H. now right.
Qed.

(** The rows a run of the loop appends: each carries the fields of a seed
    whose shift name the table did not hold, and the old rows stay in front,
    untouched. *)
Lemma fold_seed_appends (l : list slot_dict) (db : Session) :
  exists added,
    time_slots (fold_left seed_slot l db) = time_slots db ++ added
    /\ bookings (fold_left seed_slot l db) = bookings db
    /\ users (fold_left seed_slot l db) = users db
    /\ inventory (fold_left seed_slot l db) = inventory db
    /\ Forall (fun t =>
         ~ shift_present (models.TimeSlot.shift_name t) db
         /\ exists s, In s l
              /\ models.TimeSlot.shift_name t = shift_name s
              /\ models.TimeSlot.start_time t = start_time s
              /\ models.TimeSlot.end_time t = end_time s
              /\ models.TimeSlot.price t = price s) added.
Proof.
  revert db. induction l as [|a l IH]; intros db; simpl.
  - exists []. rewrite app_nil_r. repeat split. constructor.
  - destruct (IH (seed_slot db a)) as (added & Ht & Hb & Hu & Hi & Hall).
    destruct (shift_present_dec (shift_name a) db) as [Hp|Hp].
    + rewrite seed_slot_present in * by assumption.
      exists added. repeat split; try assumption.
      eapply Forall_impl; [|exact Hall]. simpl.
      intros t [Hn (s & Hs & Hf)]. split; [assumption|].
      exists s. split; [now right | assumption].
    + rewrite seed_slot_absent in * by assumption.
      simpl in Ht, Hb, Hu, Hi.
      eexists (_ :: added). rewrite <- app_assoc in Ht. simpl in Ht.
      repeat split; try eassumption.
      constructor.
      * simpl. split; [assumption|]. exists a. repeat split. now left.
      * eapply Forall_impl; [|exact Hall]. simpl.
        intros t [Hn (s & Hs & Hf)]. split.
        -- intros [t0 [Hin Hname]]. apply Hn. exists t0. simpl.
           split; [apply in_or_app; now left | assumption].
        -- exists s. split; [now right | assumption].
Qed.

(** The loop gives the same store whether or not its queries see the rows
    added before them: the shift names of [slots] are pairwise distinct. *)
Lemma not_seeded_add (db : Session) (a s : slot_dict) :
  shift_name a <> shift_name s ->
  not_seeded (add_time_slot db a) s = not_seeded db s.
Proof.
  intros Hne. unfold not_seeded. simpl. rewrite find_app.
  destruct (find _ (time_slots db)); [reflexivity|]. simpl.
  unfold has_shift at 1. simpl.
  apply String.eqb_neq in Hne. now rewrite Hne.
Qed.

Lemma fold_seed_deferred (l : list slot_dict) (db : Session) :
  NoDup (map shift_name l) ->
  fold_left seed_slot l db
  = fold_left add_time_slot (filter (not_seeded db) l) db.
Proof.
  revert db. induction l as [|a l IH]; intros db Hnd; [reflexivity|].
  inversion Hnd as [|x xs Hnotin Hnd']; subst. simpl.
  unfold seed_slot at 2. unfold not_seeded at 1.
  destruct (find _ (time_slots db)) as [t|] eqn:E.
  - now apply IH.
  - simpl. rewrite IH by assumption. f_equal.
    apply filter_ext_in. intros s Hs. apply not_seeded_add.
    intros Heq. apply Hnotin. rewrite Heq. now apply in_map.
Qed.

Lemma init_time_slots_deferred_eq (db : Session) :
  init_time_slots_deferred db = init_time_slots db.
Proof.
  symmetry. apply fold_seed_deferred.
  repeat (constructor; [simpl; intuition discriminate|]). constructor.
Qed.

(** C4. Seeding the empty store gives ten time slots; seeding it again gives
    the same store, so still ten.  On every store a second run changes
    nothing, a seed is skipped when its shift name is in the table and
    appended when it is not, and a run keeps the rows it found, in place
    and untouched, in front of the rows it appends; it writes to no other
    table. *)
Theorem init_time_slots_idempotent :
  List.length (time_slots (init_time_slots empty_store)) = 10%nat
  /\ List.length (time_slots (init_time_slots (init_time_slots empty_store)))
     = 10%nat
  /\ init_time_slots (init_time_slots empty_store) = init_time_slots empty_store
  /\ (forall db, init_time_slots (init_time_slots db) = init_time_slots db)
  /\ (forall db slot,
        (shift_present (shift_name slot) db -> seed_slot db slot = db)
        /\ (~ shift_present (shift_name slot) db ->
            seed_slot db slot = add_time_slot db slot))
  /\ (forall db, exists added,
        time_slots (init_time_slots db) = time_slots db ++ added
        /\ bookings (init_time_slots db) = bookings db
        /\ users (init_time_slots db) = users db
        /\ inventory (init_time_slots db) = inventory db
        /\ Forall (fun t =>
             ~ shift_present (models.TimeSlot.shift_name t) db
             /\ exists s, In s slots
                  /\ models.TimeSlot.shift_name t = shift_name s
                  /\ models.TimeSlot.start_time t = start_time s
                  /\ models.TimeSlot.end_time t = end_time s
                  /\ models.TimeSlot.price t = price s) added).
Proof.
  assert (Hidem : forall db,
            init_time_slots (init_time_slots db) = init_time_slots db).
  { intros db. unfold init_time_slots at 1.
    apply fold_seed_fixed. intros s Hs. now apply fold_seed_adds. }
  split; [reflexivity|].
  split; [now rewrite Hidem|].
  split; [apply Hidem|].
  split; [exact Hidem|].
  split.
  - intros db slot. split; [apply seed_slot_present | apply seed_slot_absent].
  - intros db. apply fold_seed_appends.
Qed.

(** ** C5: [get_latest_inventory] *)

Lemma hd_insert_desc (r : models.Inventory.t) (l : list models.Inventory.t) :
  hd_error (insert_desc r l)
  = match hd_error l with
    | None => Some r
    | Some x =>
      if models.Inventory.check_date r <? models.Inventory.check_date x
      then Some x else Some r
    end.
Proof.
  destruct l as [|x t]; simpl; [reflexivity|].
  destruct (_ <? _); reflexivity.
Qed.

Lemma order_by_nil (rows : list models.Inventory.t) :
  hd_error (order_by_check_date_desc rows) = None <-> rows = [].
Proof.
  destruct rows as [|r rows]; simpl; [tauto|].
  rewrite hd_insert_desc. split; [|discriminate].
  destruct (hd_error _) as [x|]; [destruct (_ <? _)|]; discriminate.
Qed.

(** The head of the ordered table is a row of the table and no row has a
    later check date. *)
Lemma order_by_head_max (rows : list models.Inventory.t)
    (top : models.Inventory.t) :
  hd_error (order_by_check_date_desc rows) = Some top ->
  In top rows
  /\ forall r, In r rows ->
       models.Inventory.check_date r <= models.Inventory.check_date top.
Proof.
  revert top. induction rows as [|a rows IH]; simpl; intros top H.
  - discriminate.
  - rewrite hd_insert_desc in H.
    destruct (hd_error (order_by_check_date_desc rows)) as [x|] eqn:E.
    + destruct (IH x eq_refl) as [Hin Hmax].
      destruct (models.Inventory.check_date a <? models.Inventory.check_date x)
        eqn:Hlt; inversion H; subst top; clear H.
      * apply Z.ltb_lt in Hlt. split; [now right|].
        intros r [<-|Hr]; [lia | now apply Hmax].
      * apply Z.ltb_ge in Hlt. split; [now left|].
        intros r [<-|Hr]; [lia|]. specialize (Hmax r Hr). lia.
    + inversion H; subst top. apply order_by_nil in E. subst rows.
      split; [now left|]. intros r [<-|[]]. lia.
Qed.

Lemma max_check_date_unique (rows : list models.Inventory.t) (d1 d2 : Z) :
  max_check_date rows d1 -> max_check_date rows d2 -> d1 = d2.
Proof.
  intros [[r1 [H1 E1]] M1] [[r2 [H2 E2]] M2].
  specialize (M1 r2 H2). specialize (M2 r1 H1). lia.
Qed.

Lemma max_check_date_perm (rows rows' : list models.Inventory.t) (d : Z) :
  Permutation rows rows' -> max_check_date rows d -> max_check_date rows' d.
Proof.
  intros HP [[r [Hr Er]] M]. split.
  - exists r. split; [eapply Permutation_in; eassumption | assumption].
  - intros x Hx. apply M. eapply Permutation_in; [|exact Hx].
    now apply Permutation_sym.
Qed.

(** C5. For a user whose role passes the check, [get_latest_inventory]
    raises 404 exactly when the inventory table is empty (and is the only way
    it fails); otherwise it returns one row of the table whose check date is
    the largest of the table.  The order of the rows does not matter: on any
    permutation of the table the returned row has the same, largest, check
    date, and it is the same row whenever only one row has that date. *)
Theorem get_latest_inventory_max :
  forall (current_user : models.User.t) (db : Session),
    In (models.User.role current_user) staff_roles ->
    (raises 404 (fst (get_latest_inventory current_user db))
       <-> inventory db = [])
    /\ (inventory db <> [] ->
          exists latest,
            get_latest_inventory current_user db = (Ok latest, db)
            /\ In latest (inventory db)
            /\ max_check_date (inventory db)
                 (models.Inventory.check_date latest))
    /\ (forall db' latest latest',
          Permutation (inventory db) (inventory db') ->
          fst (get_latest_inventory current_user db) = Ok latest ->
          fst (get_latest_inventory current_user db') = Ok latest' ->
          models.Inventory.check_date latest'
          = models.Inventory.check_date latest
          /\ ((forall r, In r (inventory db) ->
                 models.Inventory.check_date r
                 = models.Inventory.check_date latest -> r = latest) ->
              latest' = latest)).
Proof.
  intros current_user db Hrole.
  assert (Hget : forall s,
            get_latest_inventory current_user s
            = match hd_error (order_by_check_date_desc (inventory s)) with
              | None =>
                (Raise (mkHTTPException 404 "No inventory records found"), s)
              | Some latest_inventory => (Ok latest_inventory, s)
              end).
  { intros s. unfold get_latest_inventory.
    apply str_in_In in Hrole. now rewrite Hrole. }
  assert (Hmax : forall s top,
            fst (get_latest_inventory current_user s) = Ok top ->
            In top (inventory s)
            /\ max_check_date (inventory s) (models.Inventory.check_date top)).
  { intros s top. rewrite Hget.
    destruct (hd_error _) as [x|] eqn:E; simpl; [|discriminate].
    intros H; inversion H; subst x.
    destruct (order_by_head_max _ _ E) as [Hin Hle].
    split; [assumption|]. split; [eauto | assumption]. }
  split; [|split].
  - rewrite Hget.
    destruct (hd_error _) as [x|] eqn:E; simpl.
    + split.
      * intros [e [He _]]. discriminate.
      * intros Hnil. apply order_by_nil in Hnil. congruence.
    + split; [intros _; now apply order_by_nil|].
      intros _. eexists. split; reflexivity.
  - intros Hne. pose proof (Hmax db) as Hm. rewrite Hget in *.
    destruct (hd_error _) as [x|] eqn:E.
    + exists x. destruct (Hm x eq_refl). auto.
    + apply order_by_nil in E. contradiction.
  - intros db' latest latest' HP H H'.
    destruct (Hmax db latest H) as [Hin Hm].
    destruct (Hmax db' latest' H') as [Hin' Hm'].
    apply Permutation_sym in HP.
    pose proof (max_check_date_perm _ _ _ HP Hm') as Hm2.
    pose proof (max_check_date_unique _ _ _ Hm Hm2) as Heq.
    split; [now symmetry|].
    intros Huniq. apply Huniq; [|now symmetry].
    eapply Permutation_in; eassumption.
Qed.

(** ** C6: the role lists of the four admin handlers *)

Lemma str_in_not_In (x : string) (l : list string) :
  str_in x l = false <-> ~ In x l.
Proof.
  rewrite <- str_in_In. destruct (str_in x l); split; congruence.
Qed.

Lemma raises_not_authorized {A : Type} :
  raises 403 (@not_authorized A).
Proof.
  eexists. split; reflexivity.
Qed.

Lemma raises_Ok {A : Type} (code : Z) (a : A) : ~ raises code (Ok a).
Proof.
  intros [e [H _]]. discriminate.
Qed.

Lemma raises_StorageError {A : Type} (code : Z) :
  ~ raises code (@StorageError A).
Proof.
  intros [e [H _]]. discriminate.
Qed.

Lemma raises_code {A : Type} (code code' : Z) (msg : string) :
  raises code (@Raise A (mkHTTPException code' msg)) <-> code' = code.
Proof.
  split.
  - intros [e [H Hc]]. inversion H; subst e. exact Hc.
  - intros ->. eexists. split; reflexivity.
Qed.

(** C6. Whoever the authenticated user is, the booking listing, the status
    update and the latest-inventory handler raise 403 exactly when the
    user's role is none of "admin", "manager", "owner", and the
    inventory-create handler raises 403 exactly when the role is none of
    "admin", "manager".  An "owner" is therefore refused by inventory-create
    and passes the role check of the other three. *)
Theorem role_checks :
  forall (takes_key takes_int : Z -> bool)
         (engine_window :
            Z -> Z -> list models.Booking.t -> option (list models.Booking.t))
         (skip limit : option Z) (booking_id : Z)
         (status_update : schemas.BookingStatus.t) (now : Z)
         (inv : schemas.InventoryCreate.t)
         (current_user : models.User.t) (db : Session),
    let role := models.User.role current_user in
    let listing :=
      fst (get_all_bookings engine_window skip limit current_user db) in
    let update :=
      fst (update_booking_status takes_key booking_id status_update
             current_user now db) in
    let latest := fst (get_latest_inventory current_user db) in
    let create := fst (create_inventory_check takes_int inv current_user db) in
    (raises 403 listing <-> ~ In role ["admin"; "manager"; "owner"])
    /\ (raises 403 update <-> ~ In role ["admin"; "manager"; "owner"])
    /\ (raises 403 latest <-> ~ In role ["admin"; "manager"; "owner"])
    /\ (raises 403 create <-> ~ In role ["admin"; "manager"])
    /\ (role = "owner" ->
          raises 403 create
          /\ ~ raises 403 listing /\ ~ raises 403 update
          /\ ~ raises 403 latest).
Proof.
  intros takes_key takes_int engine_window skip limit booking_id
         status_update now inv current_user db role listing update latest
         create.
  assert (Hl : raises 403 listing <-> ~ In role ["admin"; "manager"; "owner"]).
  { subst listing. unfold get_all_bookings. fold role.
    change ["admin"; "manager"; "owner"] with staff_roles.
    rewrite <- str_in_not_In.
    destruct (str_in role staff_roles); simpl.
    - split; [|discriminate]. unfold offset_limit_all.
      destruct (_ && _); [intros H; elim (raises_Ok _ _ H)|].
      destruct (engine_window _ _ _); intros H;
        [elim (raises_Ok _ _ H) | elim (raises_StorageError _ H)].
    - split; [reflexivity | intros _; apply raises_not_authorized]. }
  assert (Hu : raises 403 update <-> ~ In role ["admin"; "manager"; "owner"]).
  { subst update. unfold update_booking_status. fold role.
    change ["admin"; "manager"; "owner"] with staff_roles.
    rewrite <- str_in_not_In.
    destruct (str_in role staff_roles); simpl.
    - split; [|discriminate].
      destruct (find _ _); [|destruct (takes_key booking_id)]; simpl;
        intros H;
        [elim (raises_Ok _ _ H) | apply raises_code in H; discriminate
         | elim (raises_StorageError _ H)].
    - split; [reflexivity | intros _; apply raises_not_authorized]. }
  assert (Ht : raises 403 latest <-> ~ In role ["admin"; "manager"; "owner"]).
  { subst latest. unfold get_latest_inventory. fold role.
    change ["admin"; "manager"; "owner"] with staff_roles.
    rewrite <- str_in_not_In.
    destruct (str_in role staff_roles); simpl.
    - split; [|discriminate].
      destruct (hd_error _); simpl; intros H;
        [elim (raises_Ok _ _ H) | apply raises_code in H; discriminate].
    - split; [reflexivity | intros _; apply raises_not_authorized]. }
  assert (Hc : raises 403 create <-> ~ In role ["admin"; "manager"]).
  { subst create. unfold create_inventory_check. fold role.
    change ["admin"; "manager"] with inventory_roles.
    rewrite <- str_in_not_In.
    destruct (str_in role inventory_roles); simpl.
    - split; [|discriminate].
      destruct (takes_counts takes_int inv); simpl; intros H;
        [elim (raises_Ok _ _ H) | elim (raises_StorageError _ H)].
    - split; [reflexivity | intros _; apply raises_not_authorized]. }
  repeat (split; [assumption|]).
  intros Howner.
  assert (Hstaff : In role ["admin"; "manager"; "owner"])
    by (rewrite Howner; simpl; tauto).
  assert (Hinv : ~ In role ["admin"; "manager"]).
  { rewrite Howner. simpl. intros [H|[H|[]]]; discriminate. }
  repeat split; tauto.
Qed.

(** ** C7, C8, C10: [update_booking_status] *)

Lemma find_id_None (booking_id : Z) (rows : list models.Booking.t) :
  find (fun b => models.Booking.id b =? booking_id) rows = None <->
  forall b, In b rows -> models.Booking.id b <> booking_id.
Proof.
  rewrite find_None_iff. split; intros H b Hb.
  - apply Z.eqb_neq. now apply H.
  - apply Z.eqb_neq. now apply H.
Qed.

Lemma find_id_Some (booking_id : Z) (rows : list models.Booking.t)
    (b : models.Booking.t) :
  find (fun b => models.Booking.id b =? booking_id) rows = Some b ->
  In b rows /\ models.Booking.id b = booking_id.
Proof.
  intros H. apply find_some in H. now rewrite Z.eqb_eq in H.
Qed.


(** C8. A successful [update_booking_status] leaves the time slots, the users
    and the inventory as they were, keeps the number and the order of the
    bookings, leaves every booking with another id as it was, and on a
    booking with the given id changes nothing but [status] and
    [updated_at]. *)
Theorem update_booking_status_frame :
  forall (takes_key : Z -> bool)
         (booking_id : Z) (new_status : schemas.BookingStatus.t)
         (current_user : models.User.t) (now : Z) (db db' : Session)
         (message : string),
    update_booking_status takes_key booking_id new_status current_user now db
    = (Ok message, db') ->
    time_slots db' = time_slots db
    /\ users db' = users db
    /\ inventory db' = inventory db
    /\ List.length (bookings db') = List.length (bookings db)
    /\ forall (i : nat) (b : models.Booking.t),
         nth_error (bookings db) i = Some b ->
         exists b',
           nth_error (bookings db') i = Some b'
           /\ (models.Booking.id b <> booking_id -> b' = b)
           /\ models.Booking.id b' = models.Booking.id b
           /\ models.Booking.customer_name b' = models.Booking.customer_name b
           /\ models.Booking.email b' = models.Booking.email b
           /\ models.Booking.phone b' = models.Booking.phone b
           /\ models.Booking.booking_date b' = models.Booking.booking_date b
           /\ models.Booking.time_slot_id b' = models.Booking.time_slot_id b
           /\ models.Booking.notes b' = models.Booking.notes b
           /\ models.Booking.created_at b' = models.Booking.created_at b.
Proof.
  intros takes_key booking_id new_status current_user now db db' message.
  unfold update_booking_status.
  destruct (negb _); [discriminate|].
  destruct (find _ (bookings db)) as [booking|] eqn:E;
    [|destruct (takes_key booking_id); discriminate].
  apply find_id_Some in E. destruct E as [_ Eid].
  intros H. inversion H; subst db' message; clear H. simpl.
  unfold update_status_where_id. rewrite Eid.
  repeat split; try reflexivity.
  - apply List.length_map.
  - intros i b Hi.
    exists (if models.Booking.id b =? booking_id
            then models.Booking.set_status b
                   (schemas.BookingStatus.value new_status) now
            else b).
    split.
    + rewrite nth_error_map, Hi. reflexivity.
    + destruct (models.Booking.id b =? booking_id) eqn:Eb.
      * apply Z.eqb_eq in Eb. repeat split; try reflexivity.
        intros Hne. contradiction.
      * repeat split; reflexivity.
Qed.

(** C10. The role check of [update_booking_status] comes first: a user whose
    role is none of "admin", "manager", "owner" gets 403 "Not authorized",
    never 404, whether or not a booking has the given id, and the store is
    left as it was. *)
Theorem update_booking_status_role_first :
  forall (takes_key : Z -> bool)
         (booking_id : Z) (new_status : schemas.BookingStatus.t)
         (current_user : models.User.t) (now : Z) (db : Session),
    ~ In (models.User.role current_user) ["admin"; "manager"; "owner"] ->
    update_booking_status takes_key booking_id new_status current_user now db
    = (Raise (mkHTTPException 403 "Not authorized"), db)
    /\ ~ raises 404
           (fst (update_booking_status takes_key booking_id new_status
                   current_user now db))
    /\ snd (update_booking_status takes_key booking_id new_status
              current_user now db)
       = db.
Proof.
  intros takes_key booking_id new_status current_user now db Hrole.
  change ["admin"; "manager"; "owner"] with staff_roles in Hrole.
  apply str_in_not_In in Hrole.
  unfold update_booking_status. rewrite Hrole. simpl.
  repeat split. intros H. apply raises_code in H. discriminate.
Qed.

(** ** C9: [get_all_bookings] *)

(** The rows [.offset(skip).limit(limit)] keeps are a contiguous run of the
    table. *)
Lemma window_segment {A : Type} (s l : nat) (rows : list A) :
  rows = firstn s rows ++ firstn l (skipn s rows) ++ skipn l (skipn s rows)
  /\ List.length (firstn s rows) = Nat.min s (List.length rows)
  /\ List.length (firstn l (skipn s rows))
     = Nat.min l (List.length rows - s).
Proof.
  rewrite !firstn_skipn. rewrite !List.length_firstn, List.length_skipn.
  auto.
Qed.

Lemma is_count_true (n : Z) : is_count n = true <-> 0 <= n < 2 ^ 63.
Proof.
  unfold is_count. rewrite andb_true_iff, Z.leb_le, Z.ltb_lt. tauto.
Qed.

(** C9, as the code has it. For a user whose role passes the check: an
    omitted [skip] is 0 and an omitted [limit] is 100; for every [skip] and
    [limit] from 0 up to, and not including, [2 ^ 63] the handler returns
    the contiguous run of the stored bookings that starts after the first
    [skip] rows and holds [limit] rows, or all that are left when fewer
    are; the store is not written.  A call without parameters therefore
    returns the first 100 bookings, and no more than 100. *)
Theorem get_all_bookings_page :
  forall (engine_window :
            Z -> Z -> list models.Booking.t -> option (list models.Booking.t))
         (current_user : models.User.t) (db : Session),
    In (models.User.role current_user) staff_roles ->
    (forall skip limit,
       get_all_bookings engine_window None limit current_user db
       = get_all_bookings engine_window (Some 0) limit current_user db
       /\ get_all_bookings engine_window skip None current_user db
          = get_all_bookings engine_window skip (Some 100) current_user db)
    /\ (forall skip limit,
          0 <= skip < 2 ^ 63 -> 0 <= limit < 2 ^ 63 ->
          exists before page after,
            get_all_bookings engine_window (Some skip) (Some limit)
              current_user db = (Ok page, db)
            /\ bookings db = before ++ page ++ after
            /\ List.length before
               = Nat.min (Z.to_nat skip) (List.length (bookings db))
            /\ List.length page
               = Nat.min (Z.to_nat limit)
                   (List.length (bookings db) - Z.to_nat skip)
            /\ Z.of_nat (List.length page) <= limit)
    /\ (exists page,
          get_all_bookings engine_window None None current_user db
          = (Ok page, db)
          /\ page = firstn 100 (bookings db)
          /\ (List.length page <= 100)%nat).
Proof.
  intros engine_window current_user db Hrole.
  apply str_in_In in Hrole.
  split; [|split].
  - intros skip limit. split; reflexivity.
  - intros skip limit Hs Hl.
    destruct (window_segment (Z.to_nat skip) (Z.to_nat limit) (bookings db))
      as (Hseg & Hb & Hp).
    exists (firstn (Z.to_nat skip) (bookings db)),
           (firstn (Z.to_nat limit) (skipn (Z.to_nat skip) (bookings db))),
           (skipn (Z.to_nat limit) (skipn (Z.to_nat skip) (bookings db))).
    unfold get_all_bookings, offset_limit_all. rewrite Hrole. simpl negb.
    cbv iota.
    rewrite (proj2 (is_count_true skip) Hs), (proj2 (is_count_true limit) Hl).
    simpl andb. cbv iota.
    split; [reflexivity|]. split; [exact Hseg|]. split; [exact Hb|].
    split; [exact Hp|]. rewrite Hp. lia.
  - exists (firstn 100 (bookings db)).
    split; [|split; [reflexivity|]].
    + unfold get_all_bookings, offset_limit_all. rewrite Hrole. reflexivity.
    + rewrite List.length_firstn. lia.
Qed.

(** C9, as stated, fails outside that range, for [skip] as for [limit].  On
    [booked_again], which holds two bookings: with [limit = -1] an engine
    that reads a negative [LIMIT] as no limit lists both bookings, more than
    [-1] rows, and one that rejects it lists nothing at all; with
    [skip = -1] the rejecting engine fails the request; with [limit] or
    [skip] at [2 ^ 63] both engines fail it.  None of these runs returns
    the segment the claim describes, and with [limit = -1] no engine at all
    can: a list has no fewer than 0 rows. *)
Lemma get_all_bookings_outside_counts :
  get_all_bookings lenient_window (Some 0) (Some (-1)) admin_user booked_again
  = (Ok (bookings booked_again), booked_again)
  /\ List.length (bookings booked_again) = 2%nat
  /\ get_all_bookings strict_window (Some 0) (Some (-1)) admin_user
       booked_again = (StorageError, booked_again)
  /\ get_all_bookings strict_window (Some (-1)) (Some 1) admin_user
       booked_again = (StorageError, booked_again)
  /\ get_all_bookings lenient_window (Some 0) (Some (2 ^ 63)) admin_user
       booked_again = (StorageError, booked_again)
  /\ get_all_bookings strict_window (Some 0) (Some (2 ^ 63)) admin_user
       booked_again = (StorageError, booked_again)
  /\ get_all_bookings lenient_window (Some (2 ^ 63)) (Some 1) admin_user
       booked_again = (StorageError, booked_again)
  /\ get_all_bookings strict_window (Some (2 ^ 63)) (Some 1) admin_user
       booked_again = (StorageError, booked_again)
  /\ ~ (exists (engine_window :
                  Z -> Z -> list models.Booking.t
                  -> option (list models.Booking.t))
               (page : list models.Booking.t),
           get_all_bookings engine_window (Some 0) (Some (-1)) admin_user
             booked_again = (Ok page, booked_again)
           /\ Z.of_nat (List.length page) <= -1).
Proof.
  repeat (split; [vm_compute; reflexivity|]).
  intros (engine_window & page & _ & Hlen). lia.
Qed.

(** ** C2: the double-booking invariant *)

Lemma no_double_booking_snoc (rows : list models.Booking.t)
    (b : models.Booking.t) :
  no_double_booking rows = true ->
  (forall x, In x rows -> clash x b = false) ->
  no_double_booking (rows ++ [b]) = true.
Proof.
  induction rows as [|a rows IH]; simpl; intros Hinv Hb; [reflexivity|].
  apply andb_true_iff in Hinv. destruct Hinv as [Ha Hrest].
  apply andb_true_iff. split.
  - rewrite forallb_app, Ha. simpl.
    rewrite (Hb a (or_introl eq_refl)). reflexivity.
  - apply IH; [assumption|]. intros x Hx. apply Hb. now right.
Qed.

(** [create_booking] keeps the invariant: its query is the check. *)
Lemma create_booking_keeps_invariant (takes_key : Z -> bool)
    (booking : schemas.BookingCreate.t)
    (created updated : Z) (db : Session) :
  no_double_booking (bookings db) = true ->
  no_double_booking
    (bookings (snd (create_booking takes_key booking created updated db)))
  = true.
Proof.
  intros Hinv. unfold create_booking.
  destruct (find _ (time_slots db));
    [|destruct (takes_key _); assumption].
  destruct (find (takes_slot _ _) (bookings db)) eqn:E; [assumption|].
  simpl. apply no_double_booking_snoc; [assumption|].
  intros x Hx. pose proof (find_none _ _ E x Hx) as Hfree.
  unfold clash. destruct (str_in (models.Booking.status x) active_statuses)
    eqn:Hact; [|reflexivity].
  simpl. destruct (takes_slot _ _ (new_booking _ _ _ _)) eqn:Ht;
    [|reflexivity].
  apply takes_slot_true in Ht. simpl in Ht. destruct Ht as (Hd & Hs & _).
  unfold takes_slot in Hfree. rewrite Hact, Hd, Hs, !Z.eqb_refl in Hfree.
  discriminate.
Qed.

(** Seeding, [login] and [create_inventory_check] do not write to the
    bookings. *)
Lemma bookings_untouched (takes_int : Z -> bool)
    (verify_password : string -> string -> bool)
    (create_access_token : list (string * string) -> Z -> string)
    (ACCESS_TOKEN_EXPIRE_MINUTES : Z)
    (form_data : OAuth2PasswordRequestForm.t) (now : Z)
    (inv : schemas.InventoryCreate.t) (current_user : models.User.t)
    (db : Session) :
  bookings (init_time_slots db) = bookings db
  /\ bookings (snd (login verify_password create_access_token
                      ACCESS_TOKEN_EXPIRE_MINUTES form_data now db))
     = bookings db
  /\ bookings (snd (create_inventory_check takes_int inv current_user db))
     = bookings db.
Proof.
  split; [|split].
  - destruct (fold_seed_appends slots db) as (added & _ & Hb & _).
    exact Hb.
  - unfold login. destruct (find _ _); [|reflexivity].
    destruct (negb _); reflexivity.
  - unfold create_inventory_check. destruct (negb _); [reflexivity|].
    destruct (negb _); reflexivity.
Qed.

(** *** Primary keys *)

Lemma next_id_fresh (ids : list Z) (i : Z) : In i ids -> i < next_id ids.
Proof.
  unfold next_id. induction ids as [|a ids IH]; cbn [fold_right In];
    [contradiction|].
  intros [->|H]; [lia|]. specialize (IH H). lia.
Qed.

Lemma update_status_where_id_ids (pk : Z) (s : string) (now : Z)
    (rows : list models.Booking.t) :
  map models.Booking.id (update_status_where_id pk s now rows)
  = map models.Booking.id rows.
Proof.
  unfold update_status_where_id. rewrite map_map. apply map_ext.
  intros b. destruct (_ =? _); reflexivity.
Qed.

(** The booking ids of a reachable store are pairwise distinct, so the
    [WHERE bookings.id = ?] of a status update names one row. *)
Lemma reachable_unique_ids (takes_key takes_int : Z -> bool)
    (verify_password : string -> string -> bool)
    (create_access_token : list (string * string) -> Z -> string)
    (ACCESS_TOKEN_EXPIRE_MINUTES : Z) (us : list models.User.t)
    (db : Session) :
  reachable takes_key takes_int verify_password create_access_token
    ACCESS_TOKEN_EXPIRE_MINUTES
    (provisioned us) db ->
  NoDup (map models.Booking.id (bookings db)).
Proof.
  induction 1 as [|db db' Hreach IH Hstep]; [constructor|].
  destruct Hstep as [db | form_data now db | booking created updated db
                     | booking_id status_update current_user now db Hin
                     | inv current_user db Hin].
  - destruct (fold_seed_appends slots db) as (added & _ & Hb & _).
    unfold init_time_slots. now rewrite Hb.
  - destruct (bookings_untouched takes_int verify_password create_access_token
                ACCESS_TOKEN_EXPIRE_MINUTES form_data now
                (schemas.InventoryCreate.mk 0 0 0 0 0) admin_user db)
      as (_ & Hb & _).
    now rewrite Hb.
  - unfold create_booking.
    destruct (find _ (time_slots db));
      [|destruct (takes_key _); assumption].
    destruct (find _ (bookings db)); [assumption|].
    simpl. rewrite map_app. simpl.
    eapply Permutation_NoDup; [apply Permutation_cons_append|].
    constructor; [|assumption].
    intros Hin. apply next_id_fresh in Hin. lia.
  - unfold update_booking_status. destruct (negb _); [assumption|].
    destruct (find _ (bookings db));
      [|destruct (takes_key _); assumption].
    simpl. now rewrite update_status_where_id_ids.
  - destruct (bookings_untouched takes_int verify_password create_access_token
                ACCESS_TOKEN_EXPIRE_MINUTES
                (OAuth2PasswordRequestForm.mk "" "") 0 inv current_user db)
      as (_ & _ & Hb).
    now rewrite Hb.
Qed.

(** Every request but a status update keeps the invariant. *)
Lemma step_keeps_invariant_or_updates (takes_key takes_int : Z -> bool)
    (verify_password : string -> string -> bool)
    (create_access_token : list (string * string) -> Z -> string)
    (ACCESS_TOKEN_EXPIRE_MINUTES : Z) (db db' : Session) :
  step takes_key takes_int verify_password create_access_token
    ACCESS_TOKEN_EXPIRE_MINUTES db db' ->
  no_double_booking (bookings db) = true ->
  no_double_booking (bookings db') = true
  \/ exists booking_id status_update current_user now,
       In current_user (users db)
       /\ db' = snd (update_booking_status takes_key booking_id
                       status_update current_user now db).
Proof.
  intros Hstep Hinv.
  destruct Hstep as [db | form_data now db | booking created updated db
                     | booking_id status_update current_user now db Hin
                     | inv current_user db Hin].
  - left.
    destruct (fold_seed_appends slots db) as (added & _ & Hb & _).
    unfold init_time_slots. now rewrite Hb.
  - left.
    destruct (bookings_untouched takes_int verify_password create_access_token
                ACCESS_TOKEN_EXPIRE_MINUTES form_data now
                (schemas.InventoryCreate.mk 0 0 0 0 0) admin_user db)
      as (_ & Hb & _).
    now rewrite Hb.
  - left. now apply create_booking_keeps_invariant.
  - right. eauto 6.
  - left.
    destruct (bookings_untouched takes_int verify_password create_access_token
                ACCESS_TOKEN_EXPIRE_MINUTES
                (OAuth2PasswordRequestForm.mk "" "") 0 inv current_user db)
      as (_ & _ & Hb).
    now rewrite Hb.
Qed.

(** With no user in the table no admin request gets through, and every store
    the other requests reach keeps the invariant. *)
Lemma no_double_booking_without_users (takes_key takes_int : Z -> bool)
    (verify_password : string -> string -> bool)
    (create_access_token : list (string * string) -> Z -> string)
    (ACCESS_TOKEN_EXPIRE_MINUTES : Z) (db : Session) :
  reachable takes_key takes_int verify_password create_access_token
    ACCESS_TOKEN_EXPIRE_MINUTES
    empty_store db ->
  users db = [] /\ no_double_booking (bookings db) = true.
Proof.
  induction 1 as [|db db' Hreach [Hu Hinv] Hstep].
  - split; reflexivity.
  - split.
    + destruct Hstep as [db | form_data now db | booking created updated db
                         | booking_id status_update current_user now db Hin
                         | inv current_user db Hin].
      * destruct (fold_seed_appends slots db) as (added & _ & _ & Hus & _).
        unfold init_time_slots. now rewrite Hus.
      * unfold login. rewrite Hu. simpl. exact Hu.
      * unfold create_booking.
        destruct (find _ (time_slots db));
      [|destruct (takes_key _); assumption].
        destruct (find _ (bookings db)); assumption.
      * rewrite Hu in Hin. contradiction.
      * rewrite Hu in Hin. contradiction.
    + destruct (step_keeps_invariant_or_updates _ _ _ _ _ _ _ Hstep Hinv)
        as [Hok | (booking_id & status_update & current_user & now & Hin & _)];
        [assumption|].
      rewrite Hu in Hin. contradiction.
Qed.

(** C2. From a deployment that holds one admin and nothing else, the
    program's own requests reach a store with two Booked bookings of the
    same date and slot: start the process, book slot 1 for 1 June, set that
    booking to Cancelled, book the slot again, set the first booking back to
    Booked.  [update_booking_status] writes the status without the query
    [create_booking] makes. *)
Theorem double_booking_reachable :
  forall (takes_key takes_int : Z -> bool)
         (verify_password : string -> string -> bool)
         (create_access_token : list (string * string) -> Z -> string)
         (ACCESS_TOKEN_EXPIRE_MINUTES : Z),
    reachable takes_key takes_int verify_password create_access_token
      ACCESS_TOKEN_EXPIRE_MINUTES
      (provisioned [admin_user; owner_user; guest_user]) double_booked
    /\ no_double_booking
         (bookings (provisioned [admin_user; owner_user; guest_user])) = true
    /\ no_double_booking (bookings double_booked) = false
    /\ map (fun b => (models.Booking.id b, models.Booking.booking_date b,
                      models.Booking.time_slot_id b, models.Booking.status b))
           (bookings double_booked)
       = [(1, june_first, 1, "Booked"); (2, june_first, 1, "Booked")]
    /\ fst (update_booking_status takes_key 1 schemas.BookingStatus.BOOKED
              admin_user 400 booked_again)
       = Ok "Booking status updated successfully".
Proof.
  intros takes_key takes_int verify_password create_access_token
         ACCESS_TOKEN_EXPIRE_MINUTES.
  split; [|repeat split].
  change double_booked
    with (snd (update_booking_status takes_key 1 schemas.BookingStatus.BOOKED
                 admin_user 400 booked_again)).
  eapply reachable_step;
    [|apply step_update_booking_status; vm_compute; tauto].
  change booked_again
    with (snd (create_booking takes_key booking_request 300 300
                 cancelled_once)).
  eapply reachable_step; [|apply step_create_booking].
  change cancelled_once
    with (snd (update_booking_status takes_key 1
                 schemas.BookingStatus.CANCELLED admin_user 200 booked_once)).
  eapply reachable_step;
    [|apply step_update_booking_status; vm_compute; tauto].
  change booked_once
    with (snd (create_booking takes_key booking_request 100 100 seeded)).
  eapply reachable_step; [|apply step_create_booking].
  unfold seeded.
  eapply reachable_step; [|apply step_startup].
  apply reachable_init.
Qed.

(** * Concrete runs *)


(** The right password for ada logs her in and stamps her row; a wrong one
    is refused with 401 and stamps nothing. *)
Lemma login_spec_witness :
  (fst (login sample_verify_password sample_create_access_token 30
          (OAuth2PasswordRequestForm.mk "ada@example.com" "ada") 500 seeded)
   = Ok (schemas.Token.mk "token:ada@example.com" "bearer")
   /\ In (models.User.set_last_login admin_user 500)
         (users (snd (login sample_verify_password sample_create_access_token
                        30 (OAuth2PasswordRequestForm.mk "ada@example.com"
                              "ada") 500 seeded))))
  /\ snd (login sample_verify_password sample_create_access_token 30
            (OAuth2PasswordRequestForm.mk "ada@example.com" "guess") 500
            seeded) = seeded.
Proof.
  split.
  - pose proof (login_spec sample_verify_password sample_create_access_token
                  30 (OAuth2PasswordRequestForm.mk "ada@example.com" "ada")
                  500 seeded) as H.
    cbv zeta in H. destruct H as (_ & _ & Hok).
    destruct (Hok admin_user eq_refl eq_refl) as (_ & _ & Htok & Hin & _).
    split; [exact Htok | exact Hin].
  - pose proof (login_spec sample_verify_password sample_create_access_token
                  30 (OAuth2PasswordRequestForm.mk "ada@example.com" "guess")
                  500 seeded) as H.
    cbv zeta in H. destruct H as (_ & Herr & _).
    apply (Herr (mkHTTPException 401 "Incorrect email or password")).
    reflexivity.
Defined.

(** Of the checks of 739040, 739050 and 739045 the owner is shown the one of
    739050. *)
Lemma get_latest_inventory_max_witness :
  In (models.User.role owner_user) staff_roles
  /\ exists latest,
       get_latest_inventory owner_user stocked = (Ok latest, stocked)
       /\ In latest (inventory stocked)
       /\ max_check_date (inventory stocked)
            (models.Inventory.check_date latest).
Proof.
  assert (Hrole : In (models.User.role owner_user) staff_roles)
    by (right; right; left; reflexivity).
  split; [exact Hrole|].
  apply (proj1 (proj2 (get_latest_inventory_max owner_user stocked Hrole))).
  discriminate.
Defined.


(** Setting booking 1 of [booked_again] back to Booked touches no other
    table and leaves booking 2 as it was. *)
Lemma update_booking_status_frame_witness :
  update_booking_status int64 1 schemas.BookingStatus.BOOKED admin_user 400
    booked_again
  = (Ok "Booking status updated successfully", double_booked)
  /\ time_slots double_booked = time_slots booked_again
  /\ users double_booked = users booked_again
  /\ inventory double_booked = inventory booked_again
  /\ nth_error (bookings double_booked) 1 = nth_error (bookings booked_again) 1.
Proof.
  assert (Hrun : update_booking_status int64 1 schemas.BookingStatus.BOOKED
                   admin_user 400 booked_again
                 = (Ok "Booking status updated successfully", double_booked))
    by reflexivity.
  split; [exact Hrun|].
  destruct (update_booking_status_frame int64 1 schemas.BookingStatus.BOOKED
              admin_user 400 booked_again double_booked _ Hrun)
    as (Ht & Hu & Hi & _ & Hrows).
  repeat (split; [assumption|]).
  destruct (Hrows 1%nat (new_booking cancelled_once booking_request 300 300)
              eq_refl) as (b' & Hnth & Hsame & _).
  rewrite Hnth, Hsame; [reflexivity | discriminate].
Defined.

(** A guest is refused with 403 on a booking that does not exist. *)
Lemma update_booking_status_role_first_witness :
  ~ In (models.User.role guest_user) ["admin"; "manager"; "owner"]
  /\ update_booking_status int64 99 schemas.BookingStatus.DONE guest_user 200
       booked_once
     = (Raise (mkHTTPException 403 "Not authorized"), booked_once).
Proof.
  assert (Hrole : ~ In (models.User.role guest_user)
                      ["admin"; "manager"; "owner"]).
  { intros [H|[H|[H|[]]]]; discriminate H. }
  split; [exact Hrole|].
  apply (proj1 (update_booking_status_role_first int64 99
                  schemas.BookingStatus.DONE
                  guest_user 200 booked_once Hrole)).
Defined.

(** Of the two bookings of [booked_again], skipping one and asking for one
    gives the second. *)
Lemma get_all_bookings_page_witness :
  In (models.User.role admin_user) staff_roles
  /\ 0 <= 1 < 2 ^ 63
  /\ exists before page after,
       get_all_bookings strict_window (Some 1) (Some 1) admin_user booked_again
       = (Ok page, booked_again)
       /\ bookings booked_again = before ++ page ++ after
       /\ List.length before = 1%nat
       /\ List.length page = 1%nat.
Proof.
  assert (Hrole : In (models.User.role admin_user) staff_roles)
    by (left; reflexivity).
  assert (Hone : 0 <= 1 < 2 ^ 63) by (split; [discriminate | reflexivity]).
  split; [exact Hrole|]. split; [exact Hone|].
  destruct (proj1 (proj2 (get_all_bookings_page strict_window admin_user
                            booked_again Hrole)) 1 1 Hone Hone)
    as (before & page & after & Hrun & Hseg & Hb & Hp & _).
  exists before, page, after.
  repeat split; assumption.
Defined.

(** * Further properties of the handlers *)

(** ** Lookups through an update *)

Lemma find_map_same {A : Type} (p : A -> bool) (f : A -> A) (l : list A) :
  (forall x, p (f x) = p x) ->
  find p (map f l) = option_map f (find p l).
Proof.
  intros Hp. induction l as [|a l IH]; simpl; [reflexivity|].
  rewrite Hp. destruct (p a); [reflexivity | exact IH].
Qed.

Lemma find_ext_in {A : Type} (p q : A -> bool) (l : list A) :
  (forall x, In x l -> p x = q x) -> find p l = find q l.
Proof.
  induction l as [|a l IH]; simpl; intros H; [reflexivity|].
  rewrite (H a (or_introl eq_refl)).
  destruct (q a); [reflexivity|]. apply IH. intros x Hx. apply H. now right.
Qed.

(** ** [create_inventory_check] followed by [get_latest_inventory] *)

(** X2. After a check has been recorded, [get_latest_inventory] does not
    raise 404: it returns a row whose check date is at least the recorded
    one and at least that of every older row; when the recorded date is
    later than all the older ones the row returned is the one just
    recorded. *)
Theorem latest_after_create :
  forall (takes_int : Z -> bool)
         (inv : schemas.InventoryCreate.t) (recorder viewer : models.User.t)
         (db db' : Session) (row : models.Inventory.t),
    create_inventory_check takes_int inv recorder db = (Ok row, db') ->
    In (models.User.role viewer) staff_roles ->
    exists latest,
      get_latest_inventory viewer db' = (Ok latest, db')
      /\ In latest (inventory db')
      /\ schemas.InventoryCreate.check_date inv
         <= models.Inventory.check_date latest
      /\ (forall r, In r (inventory db) ->
            models.Inventory.check_date r
            <= models.Inventory.check_date latest)
      /\ ((forall r, In r (inventory db) ->
             models.Inventory.check_date r
             < schemas.InventoryCreate.check_date inv) ->
          latest = row).
Proof.
  intros takes_int inv recorder viewer db db' row Hrun Hview.
  apply str_in_In in Hview.
  unfold create_inventory_check in Hrun.
  destruct (negb (str_in _ _)); [discriminate|].
  destruct (negb (takes_counts _ _)); [discriminate|].
  inversion Hrun as [[Hrow Hdb]]. clear Hrun.
  set (row0 := new_inventory db inv (models.User.id recorder)) in *.
  destruct (hd_error (order_by_check_date_desc (inventory db ++ [row0])))
    as [top|] eqn:E.
  - destruct (order_by_head_max _ _ E) as [Hin Hmax].
    exists top.
    assert (Htop : schemas.InventoryCreate.check_date inv
                   <= models.Inventory.check_date top).
    { apply (Hmax row0). apply in_or_app. right. now left. }
    subst db' row. simpl inventory.
    split.
    { unfold get_latest_inventory. rewrite Hview. simpl. now rewrite E. }
    split; [exact Hin|]. split; [exact Htop|]. split.
    + intros r Hr. apply Hmax. apply in_or_app. now left.
    + intros Hlater. apply in_app_or in Hin. destruct Hin as [Hold|[<-|[]]].
      * specialize (Hlater top Hold). lia.
      * reflexivity.
  - apply order_by_nil in E.
    destruct (inventory db); discriminate.
Qed.

(** ** [startup_event] and [get_time_slots] *)

Lemma seed_slot_rows (db1 db2 : Session) (slot : slot_dict) :
  time_slots db1 = time_slots db2 ->
  time_slots (seed_slot db1 slot) = time_slots (seed_slot db2 slot).
Proof.
  intros H. unfold seed_slot. rewrite H.
  destruct (find _ (time_slots db2)); [assumption|].
  simpl. now rewrite H.
Qed.

Lemma fold_seed_rows (l : list slot_dict) (db1 db2 : Session) :
  time_slots db1 = time_slots db2 ->
  time_slots (fold_left seed_slot l db1)
  = time_slots (fold_left seed_slot l db2).
Proof.
  revert db1 db2. induction l as [|a l IH]; simpl; intros db1 db2 H;
    [assumption|].
  apply IH. now apply seed_slot_rows.
Qed.

Lemma seed_slot_unique (db : Session) (slot : slot_dict) :
  NoDup (map models.TimeSlot.shift_name (time_slots db)) ->
  NoDup (map models.TimeSlot.shift_name (time_slots (seed_slot db slot))).
Proof.
  intros Hnd. destruct (shift_present_dec (shift_name slot) db) as [Hp|Hp].
  - now rewrite seed_slot_present.
  - rewrite seed_slot_absent by assumption. simpl. rewrite map_app. simpl.
    eapply Permutation_NoDup; [apply Permutation_cons_append|].
    constructor; [|assumption].
    intros Hin. apply in_map_iff in Hin. destruct Hin as [t [Hn Ht]].
    apply Hp. now exists t.
Qed.

(** X3. After [startup_event], on any store, [get_time_slots] lists a slot
    for each of the ten shift names; the run never puts a second row under a
    shift name, so the unique constraint on [shift_name] is not hit; and on
    a store without time slots the listing is the [slots] table itself, in
    its order. *)
Theorem startup_then_get_time_slots :
  forall db : Session,
    exists listing,
      get_time_slots (startup_event db) = (Ok listing, startup_event db)
      /\ (forall s, In s slots ->
            exists t, In t listing
                      /\ models.TimeSlot.shift_name t = shift_name s)
      /\ (NoDup (map models.TimeSlot.shift_name (time_slots db)) ->
          NoDup (map models.TimeSlot.shift_name listing))
      /\ (time_slots db = [] -> map slot_fields listing = slots).
Proof.
  intros db. exists (time_slots (startup_event db)).
  split; [reflexivity|]. unfold startup_event, init_time_slots.
  split; [|split].
  - intros s Hs. apply (fold_seed_adds slots db s Hs).
  - generalize slots. intros l. revert db.
    induction l as [|a l IH]; simpl; intros db Hnd; [assumption|].
    apply IH. now apply seed_slot_unique.
  - intros Hempty.
    rewrite (fold_seed_rows slots db empty_store) by assumption.
    reflexivity.
Qed.

(** ** [update_booking_status] followed by [create_booking] *)

Lemma update_booking_status_run (takes_key : Z -> bool) (booking_id : Z)
    (new_status : schemas.BookingStatus.t) (current_user : models.User.t)
    (now : Z) (db : Session) (b : models.Booking.t) :
  In (models.User.role current_user) staff_roles ->
  In b (bookings db) -> models.Booking.id b = booking_id ->
  update_booking_status takes_key booking_id new_status current_user now db
  = (Ok status_updated,
     mkSession (time_slots db)
       (update_status_where_id booking_id
          (schemas.BookingStatus.value new_status) now (bookings db))
       (users db) (inventory db)).
Proof.
  intros Hrole Hin Hid. apply str_in_In in Hrole.
  unfold update_booking_status. rewrite Hrole. simpl negb. cbv iota.
  destruct (find _ (bookings db)) as [booking|] eqn:E.
  - apply find_id_Some in E. destruct E as [_ ->]. reflexivity.
  - exfalso. exact (proj1 (find_id_None _ _) E b Hin Hid).
Qed.

(** X4. A status update decides whether the booking's date and slot can be
    booked again.  After booking [booking_id] is set to Booked or Deposit
    Paid, a request for its date and slot is refused with 400.  After it is
    set to Done, Rescheduled or Cancelled, and when no other booking holds
    that date and slot with status Booked or Deposit Paid, the request is
    accepted and stored as Booked. *)
Theorem status_update_then_create :
  forall (takes_key : Z -> bool)
         (booking_id : Z) (new_status : schemas.BookingStatus.t)
         (current_user : models.User.t) (now : Z) (db : Session)
         (b : models.Booking.t) (request : schemas.BookingCreate.t)
         (created updated : Z),
    In (models.User.role current_user) staff_roles ->
    In b (bookings db) ->
    models.Booking.id b = booking_id ->
    (exists t, In t (time_slots db)
               /\ models.TimeSlot.id t = models.Booking.time_slot_id b) ->
    schemas.BookingCreate.booking_date request
    = models.Booking.booking_date b ->
    schemas.BookingCreate.time_slot_id request
    = models.Booking.time_slot_id b ->
    let db' :=
      snd (update_booking_status takes_key booking_id new_status current_user
             now db) in
    (In (schemas.BookingStatus.value new_status) ["Booked"; "Deposit Paid"] ->
       create_booking takes_key request created updated db'
       = (Raise (mkHTTPException 400
                   "This time slot is already booked for the selected date"),
          db'))
    /\ (~ In (schemas.BookingStatus.value new_status)
             ["Booked"; "Deposit Paid"] ->
        (forall x, In x (bookings db) ->
           models.Booking.id x <> booking_id ->
           models.Booking.booking_date x = models.Booking.booking_date b ->
           models.Booking.time_slot_id x = models.Booking.time_slot_id b ->
           models.Booking.status x <> "Booked"
           /\ models.Booking.status x <> "Deposit Paid") ->
        exists row,
          create_booking takes_key request created updated db'
          = (Ok row, add_booking db' row)
          /\ models.Booking.status row = "Booked"
          /\ models.Booking.booking_date row = models.Booking.booking_date b
          /\ models.Booking.time_slot_id row
             = models.Booking.time_slot_id b).
Proof.
  intros takes_key booking_id new_status current_user now db b request
         created updated Hrole Hin Hid [t [Ht Htid]] Hdate Hslot db'.
  subst db'.
  rewrite (update_booking_status_run _ _ _ _ _ _ b Hrole Hin Hid). simpl snd.
  set (v := schemas.BookingStatus.value new_status).
  set (db' := mkSession _ _ _ _).
  assert (Hfind : exists t0,
             find (fun t => models.TimeSlot.id t
                            =? schemas.BookingCreate.time_slot_id request)
                  (time_slots db') = Some t0).
  { apply find_Some_ex. exists t. split; [exact Ht|].
    apply Z.eqb_eq. congruence. }
  destruct Hfind as [t0 Ht0].
  unfold create_booking. rewrite Ht0, Hdate, Hslot.
  change (bookings db')
    with (update_status_where_id booking_id v now (bookings db)).
  split.
  - intros Hact.
    destruct (find_Some_ex
                (takes_slot (models.Booking.booking_date b)
                            (models.Booking.time_slot_id b))
                (update_status_where_id booking_id v now (bookings db)))
      as [y Hy].
    { exists (models.Booking.set_status b v now). split.
      - unfold update_status_where_id. apply in_map_iff. exists b.
        apply Z.eqb_eq in Hid. rewrite Hid. tauto.
      - apply takes_slot_true. simpl. repeat split.
        simpl in Hact. intuition congruence. }
    now rewrite Hy.
  - intros Hinact Hothers.
    assert (Hnone :
              find (takes_slot (models.Booking.booking_date b)
                               (models.Booking.time_slot_id b))
                   (update_status_where_id booking_id v now (bookings db))
              = None).
    { apply find_None_iff. intros y Hy.
      unfold update_status_where_id in Hy. apply in_map_iff in Hy.
      destruct Hy as [x [Hxy Hx]].
      destruct (takes_slot _ _ y) eqn:Ety; [|reflexivity].
      apply takes_slot_true in Ety. destruct Ety as (Hd & Hs & Hst).
      destruct (models.Booking.id x =? booking_id) eqn:Eid; subst y.
      - simpl in Hst. exfalso. apply Hinact. simpl.
        destruct Hst as [Hst|Hst]; rewrite <- Hst; tauto.
      - apply Z.eqb_neq in Eid.
        destruct (Hothers x Hx Eid Hd Hs) as [H1 H2].
        destruct Hst; contradiction. }
    rewrite Hnone. eexists. split; [reflexivity|].
    repeat split; simpl; assumption.
Qed.

(** ** Two bookings *)

(** X5. A booking blocks its own date and slot only.  After a request has
    been accepted, a request that differs from it in the date or in the slot
    meets the fate it would have met before: the same error, or success. *)
Theorem create_booking_independent :
  forall (takes_key : Z -> bool) (first second : schemas.BookingCreate.t)
         (created1 updated1 created2 updated2 : Z)
         (db db' : Session) (row : models.Booking.t),
    create_booking takes_key first created1 updated1 db = (Ok row, db') ->
    schemas.BookingCreate.booking_date second
      <> schemas.BookingCreate.booking_date first
    \/ schemas.BookingCreate.time_slot_id second
       <> schemas.BookingCreate.time_slot_id first ->
    (forall e,
       fst (create_booking takes_key second created2 updated2 db') = Raise e
       <-> fst (create_booking takes_key second created2 updated2 db) = Raise e)
    /\ ((exists r,
           fst (create_booking takes_key second created2 updated2 db') = Ok r)
        <-> (exists r,
               fst (create_booking takes_key second created2 updated2 db)
               = Ok r)).
Proof.
  intros takes_key first second created1 updated1 created2 updated2 db db'
         row Hrun Hdiff.
  unfold create_booking in Hrun.
  destruct (find _ (time_slots db)) as [t|];
    [|destruct (takes_key _); discriminate].
  destruct (find _ (bookings db)) as [x|]; [discriminate|].
  inversion Hrun; subst row db'; clear Hrun.
  assert (Hfree :
            takes_slot (schemas.BookingCreate.booking_date second)
                       (schemas.BookingCreate.time_slot_id second)
                       (new_booking db first created1 updated1) = false).
  { destruct (takes_slot _ _ _) eqn:E; [|reflexivity].
    apply takes_slot_true in E. simpl in E. destruct E as (Hd & Hs & _).
    destruct Hdiff as [H|H]; congruence. }
  unfold create_booking. simpl time_slots. simpl bookings.
  rewrite find_app. simpl find. rewrite Hfree.
  destruct (find _ (time_slots db)) as [t2|]; simpl.
  - destruct (find _ (bookings db)) as [y|]; simpl.
    + split; [tauto|]. split; intros [r Hr]; discriminate.
    + split.
      * intros e. split; discriminate.
      * split; intros _; eexists; reflexivity.
  - destruct (takes_key _); simpl;
      (split; [tauto|]); split; intros [r Hr]; discriminate.
Qed.

(** ** Two status updates *)

(** X6. The last status update wins: two updates of one booking leave the
    store a single update with the second status and the second clock
    reading would have left, whatever the first one wrote, and end in the
    same outcome. *)
Theorem update_booking_status_last_wins :
  forall (takes_key : Z -> bool)
         (booking_id : Z) (s1 s2 : schemas.BookingStatus.t)
         (u1 u2 : models.User.t) (now1 now2 : Z) (db : Session),
    In (models.User.role u1) staff_roles ->
    In (models.User.role u2) staff_roles ->
    update_booking_status takes_key booking_id s2 u2 now2
      (snd (update_booking_status takes_key booking_id s1 u1 now1 db))
    = update_booking_status takes_key booking_id s2 u2 now2 db.
Proof.
  intros takes_key booking_id s1 s2 u1 u2 now1 now2 db H1 H2.
  destruct (find (fun b => models.Booking.id b =? booking_id) (bookings db))
    as [b|] eqn:E.
  - apply find_id_Some in E. destruct E as [Hin Hid].
    rewrite (update_booking_status_run _ _ s1 _ _ _ b H1 Hin Hid). simpl snd.
    rewrite (update_booking_status_run _ _ s2 _ _ db b H2 Hin Hid).
    erewrite (update_booking_status_run _ _ s2 u2 now2 _
                (models.Booking.set_status b
                   (schemas.BookingStatus.value s1) now1) H2).
    + simpl. f_equal. f_equal. unfold update_status_where_id.
      rewrite map_map. apply map_ext. intros x.
      destruct (models.Booking.id x =? booking_id) eqn:Ex; simpl;
        rewrite Ex; reflexivity.
    + simpl. unfold update_status_where_id. apply in_map_iff. exists b.
      apply Z.eqb_eq in Hid. rewrite Hid. tauto.
    + exact Hid.
  - apply str_in_In in H1. apply str_in_In in H2.
    unfold update_booking_status. rewrite H1, H2. simpl negb. cbv iota.
    rewrite E. destruct (takes_key booking_id); simpl;
      rewrite E; reflexivity.
Qed.

(** ** [create_booking] followed by the admin handlers *)

(** X14. An accepted booking is the last row of the admin listing (of a
    table of fewer than [2 ^ 63] rows, so that its row counts are counts
    [OFFSET] and [LIMIT] take): skipping the rows that were there before
    lists it alone, and listing from the start with room for all rows gives
    the old rows followed by it. *)
Theorem created_booking_is_listed :
  forall (takes_key : Z -> bool)
         (engine_window :
            Z -> Z -> list models.Booking.t -> option (list models.Booking.t))
         (request : schemas.BookingCreate.t) (created updated : Z)
         (current_user : models.User.t) (db db' : Session)
         (row : models.Booking.t),
    create_booking takes_key request created updated db = (Ok row, db') ->
    In (models.User.role current_user) staff_roles ->
    Z.of_nat (List.length (bookings db')) < 2 ^ 63 ->
    get_all_bookings engine_window
      (Some (Z.of_nat (List.length (bookings db)))) (Some 1) current_user db'
    = (Ok [row], db')
    /\ get_all_bookings engine_window (Some 0)
         (Some (Z.of_nat (List.length (bookings db')))) current_user db'
       = (Ok (bookings db ++ [row]), db').
Proof.
  intros takes_key engine_window request created updated current_user db
         db' row Hrun Hrole Hfits.
  unfold create_booking in Hrun.
  destruct (find _ (time_slots db)) as [t|];
    [|destruct (takes_key _); discriminate].
  destruct (find _ (bookings db)) as [x|]; [discriminate|].
  inversion Hrun; subst db'; clear Hrun.
  apply str_in_In in Hrole. simpl bookings in Hfits.
  rewrite List.length_app in Hfits. simpl List.length in Hfits.
  unfold get_all_bookings, offset_limit_all. rewrite Hrole. simpl negb.
  cbv iota. simpl bookings.
  assert (Hc : forall n : nat,
            (n <= List.length (bookings db) + 1)%nat ->
            is_count (Z.of_nat n) = true)
    by (intros n Hn; apply is_count_true; lia).
  rewrite (Hc (List.length (bookings db))) by lia.
  rewrite (Hc (List.length (bookings db ++ [new_booking db request created
                                             updated])))
    by (rewrite List.length_app; simpl; lia).
  change (is_count 1) with true. change (is_count 0) with true.
  rewrite !Nat2Z.id. simpl andb. cbv iota.
  change (Z.to_nat 1) with 1%nat. change (Z.to_nat 0) with 0%nat.
  split; f_equal; f_equal.
  - rewrite skipn_app, skipn_all, Nat.sub_diag. reflexivity.
  - rewrite skipn_O. apply firstn_all.
Qed.

(** X15. The id [create_booking] returns is one [update_booking_status]
    finds: a status update addressed to it does not raise 404 and stores
    the returned booking with the new status and clock reading. *)
Theorem created_booking_is_updatable :
  forall (takes_key : Z -> bool)
         (request : schemas.BookingCreate.t) (created updated : Z)
         (new_status : schemas.BookingStatus.t)
         (current_user : models.User.t) (now : Z) (db db' : Session)
         (row : models.Booking.t),
    create_booking takes_key request created updated db = (Ok row, db') ->
    In (models.User.role current_user) staff_roles ->
    exists db'',
      update_booking_status takes_key (models.Booking.id row) new_status
        current_user now db'
      = (Ok "Booking status updated successfully", db'')
      /\ In (models.Booking.set_status row
               (schemas.BookingStatus.value new_status) now)
            (bookings db'')
      /\ List.length (bookings db'') = S (List.length (bookings db)).
Proof.
  intros takes_key request created updated new_status current_user now db
         db' row Hrun Hrole.
  unfold create_booking in Hrun.
  destruct (find _ (time_slots db)) as [t|];
    [|destruct (takes_key _); discriminate].
  destruct (find _ (bookings db)) as [x|]; [discriminate|].
  inversion Hrun; subst row db'; clear Hrun.
  set (row := new_booking db request created updated).
  rewrite (update_booking_status_run _ _ new_status _ now _ row Hrole);
    [| simpl; apply in_or_app; right; now left | reflexivity].
  eexists. split; [reflexivity|]. simpl bookings.
  unfold update_status_where_id. split.
  - apply in_map_iff. exists row. rewrite Z.eqb_refl. split; [reflexivity|].
    apply in_or_app. right. now left.
  - rewrite List.length_map, List.length_app. simpl. lia.
Qed.

(** ** Pages of the admin listing *)

Lemma firstn_plus {A : Type} (n m : nat) (l : list A) :
  firstn (n + m) l = firstn n l ++ firstn m (skipn n l).
Proof.
  revert l. induction n as [|n IH]; intros l; [reflexivity|].
  destruct l as [|a l]; simpl.
  - now rewrite firstn_nil.
  - now rewrite IH.
Qed.

Lemma skipn_plus {A : Type} (n m : nat) (l : list A) :
  skipn (n + m) l = skipn m (skipn n l).
Proof.
  revert l. induction n as [|n IH]; intros l; [reflexivity|].
  destruct l as [|a l]; simpl; [now rewrite skipn_nil | apply IH].
Qed.

(** X7. Consecutive pages tile the listing: for [skip], [n], [m] that are
    not negative and whose sum is below [2 ^ 63], the page of [n] rows
    after [skip] followed by the page of [m] rows after [skip + n] is the
    page of [n + m] rows after [skip].  Within that range a page that
    starts at or past the end of the table, and a page of limit 0, are
    empty lists, not errors. *)
Theorem get_all_bookings_pages_tile :
  forall (engine_window :
            Z -> Z -> list models.Booking.t -> option (list models.Booking.t))
         (current_user : models.User.t) (db : Session) (skip n m : Z),
    In (models.User.role current_user) staff_roles ->
    0 <= skip -> 0 <= n -> 0 <= m -> skip + n + m < 2 ^ 63 ->
    exists p1 p2,
      get_all_bookings engine_window (Some skip) (Some n) current_user db
      = (Ok p1, db)
      /\ get_all_bookings engine_window (Some (skip + n)) (Some m)
           current_user db = (Ok p2, db)
      /\ get_all_bookings engine_window (Some skip) (Some (n + m))
           current_user db = (Ok (p1 ++ p2), db)
      /\ (Z.of_nat (List.length (bookings db)) <= skip -> p1 = [])
      /\ (n = 0 -> p1 = []).
Proof.
  intros engine_window current_user db skip n m Hrole Hs Hn Hm Hfits.
  apply str_in_In in Hrole.
  assert (Hc : forall x, 0 <= x <= skip + n + m -> is_count x = true)
    by (intros x Hx; apply is_count_true; lia).
  exists (firstn (Z.to_nat n) (skipn (Z.to_nat skip) (bookings db))),
         (firstn (Z.to_nat m) (skipn (Z.to_nat (skip + n)) (bookings db))).
  unfold get_all_bookings, offset_limit_all. rewrite Hrole. simpl negb.
  cbv iota.
  rewrite (Hc skip), (Hc n), (Hc m), (Hc (skip + n)), (Hc (n + m)) by lia.
  simpl andb. cbv iota.
  split; [reflexivity|]. split; [reflexivity|]. split; [|split].
  - rewrite !Z2Nat.inj_add by assumption.
    now rewrite firstn_plus, skipn_plus.
  - intros Hpast. rewrite skipn_all2 by lia. apply firstn_nil.
  - intros ->. reflexivity.
Qed.

(** ** Two logins *)

Lemma login_users (verify_password : string -> string -> bool)
    (create_access_token : list (string * string) -> Z -> string)
    (ACCESS_TOKEN_EXPIRE_MINUTES : Z)
    (form_data : OAuth2PasswordRequestForm.t) (now : Z) (db : Session) :
  exists stamp : models.User.t -> models.User.t,
    users (snd (login verify_password create_access_token
                  ACCESS_TOKEN_EXPIRE_MINUTES form_data now db))
    = map stamp (users db)
    /\ forall u, user_core (stamp u) = user_core u.
Proof.
  unfold login.
  destruct (find _ (users db)) as [user|].
  - destruct (negb _).
    + exists (fun u => u). simpl. now rewrite map_id.
    + eexists. simpl. unfold update_last_login_where_id.
      split; [reflexivity|]. intros u. simpl.
      destruct (_ =? _); reflexivity.
  - exists (fun u => u). simpl. now rewrite map_id.
Qed.

(** X11. A login does not change what the next login meets: whoever logged
    in or failed to before, a login request ends in the outcome it would
    have ended in on the store as it was, the same token or the same 401. *)
Theorem login_after_login :
  forall (verify_password : string -> string -> bool)
         (create_access_token : list (string * string) -> Z -> string)
         (ACCESS_TOKEN_EXPIRE_MINUTES : Z)
         (earlier later : OAuth2PasswordRequestForm.t) (now1 now2 : Z)
         (db : Session),
    fst (login verify_password create_access_token
           ACCESS_TOKEN_EXPIRE_MINUTES later now2
           (snd (login verify_password create_access_token
                   ACCESS_TOKEN_EXPIRE_MINUTES earlier now1 db)))
    = fst (login verify_password create_access_token
             ACCESS_TOKEN_EXPIRE_MINUTES later now2 db).
Proof.
  intros verify_password create_access_token ACCESS_TOKEN_EXPIRE_MINUTES
         earlier later now1 now2 db.
  destruct (login_users verify_password create_access_token
              ACCESS_TOKEN_EXPIRE_MINUTES earlier now1 db)
    as (stamp & Husers & Hcore).
  assert (Hfields : forall u,
            models.User.email (stamp u) = models.User.email u
            /\ models.User.password (stamp u) = models.User.password u).
  { intros u. specialize (Hcore u). unfold user_core in Hcore.
    inversion Hcore. split; reflexivity. }
  unfold login at 1 3. rewrite Husers.
  rewrite find_map_same
    by (intros u; now rewrite (proj1 (Hfields u))).
  destruct (find _ (users db)) as [user|]; simpl; [|reflexivity].
  rewrite (proj2 (Hfields user)), (proj1 (Hfields user)).
  destruct (verify_password _ _); reflexivity.
Qed.

(** ** What keeps the double-booking invariant *)

Lemma clash_true (x y : models.Booking.t) :
  clash x y = true <->
  (models.Booking.status x = "Booked"
   \/ models.Booking.status x = "Deposit Paid")
  /\ (models.Booking.status y = "Booked"
      \/ models.Booking.status y = "Deposit Paid")
  /\ models.Booking.booking_date y = models.Booking.booking_date x
  /\ models.Booking.time_slot_id y = models.Booking.time_slot_id x.
Proof.
  unfold clash. rewrite andb_true_iff, takes_slot_true, str_in_active. tauto.
Qed.

Lemma no_double_booking_map (f : models.Booking.t -> models.Booking.t)
    (rows : list models.Booking.t) :
  (forall x y, clash (f x) (f y) = true -> clash x y = true) ->
  no_double_booking rows = true ->
  no_double_booking (map f rows) = true.
Proof.
  intros Hf. induction rows as [|a rows IH]; simpl; [reflexivity|].
  rewrite !andb_true_iff. intros [Ha Hrest]. split; [|now apply IH].
  apply forallb_forall. intros y Hy. apply in_map_iff in Hy.
  destruct Hy as [x [<- Hx]].
  rewrite forallb_forall in Ha. specialize (Ha x Hx).
  destruct (clash (f a) (f x)) eqn:E; [|reflexivity].
  apply Hf in E. rewrite E in Ha. discriminate.
Qed.

(** X12. The double-booking invariant is kept by every [create_booking] and
    by every [update_booking_status] that sets Done, Rescheduled or
    Cancelled: from a store where no two Booked or Deposit Paid bookings
    share a date and slot, both lead to such a store.  Only an update to
    Booked or Deposit Paid can break it. *)
Theorem invariant_kept_without_reactivation :
  forall (takes_key : Z -> bool) (db : Session),
    no_double_booking (bookings db) = true ->
    (forall request created updated,
       no_double_booking
         (bookings (snd (create_booking takes_key request created updated
                           db))) = true)
    /\ (forall booking_id new_status current_user now,
          ~ In (schemas.BookingStatus.value new_status)
               ["Booked"; "Deposit Paid"] ->
          no_double_booking
            (bookings (snd (update_booking_status takes_key booking_id
                              new_status current_user now db))) = true).
Proof.
  intros takes_key db Hinv. split.
  - intros request created updated.
    now apply create_booking_keeps_invariant.
  - intros booking_id new_status current_user now Hinact.
    unfold update_booking_status. destruct (negb _); [assumption|].
    destruct (find _ (bookings db)) as [booking|];
      [|destruct (takes_key _); assumption].
    simpl. unfold update_status_where_id.
    apply no_double_booking_map; [|assumption].
    intros x y Hc. apply clash_true in Hc. apply clash_true.
    destruct (models.Booking.id x =? models.Booking.id booking);
      destruct (models.Booking.id y =? models.Booking.id booking);
      simpl in Hc; try assumption;
      exfalso; apply Hinact; simpl;
      destruct Hc as ([H|H] & [H'|H'] & _);
      try (rewrite <- H; tauto); try (rewrite <- H'; tauto).
Qed.

(** ** What no request does *)

Section Histories.

Variable takes_key : Z -> bool.
Variable takes_int : Z -> bool.
Variable verify_password : string -> string -> bool.
Variable create_access_token : list (string * string) -> Z -> string.
Variable ACCESS_TOKEN_EXPIRE_MINUTES : Z.

Let step_ :=
  step takes_key takes_int verify_password create_access_token
    ACCESS_TOKEN_EXPIRE_MINUTES.
Let reachable_ :=
  reachable takes_key takes_int verify_password create_access_token
    ACCESS_TOKEN_EXPIRE_MINUTES.
Let login_ :=
  login verify_password create_access_token ACCESS_TOKEN_EXPIRE_MINUTES.

Lemma login_frame (form_data : OAuth2PasswordRequestForm.t) (now : Z)
    (db : Session) :
  time_slots (snd (login_ form_data now db)) = time_slots db
  /\ bookings (snd (login_ form_data now db)) = bookings db
  /\ inventory (snd (login_ form_data now db)) = inventory db.
Proof.
  unfold login_, login. destruct (find _ (users db)); [|tauto].
  destruct (negb _); simpl; tauto.
Qed.

Lemma update_status_where_id_core (pk : Z) (s : string) (now : Z)
    (rows : list models.Booking.t) :
  map booking_core (update_status_where_id pk s now rows)
  = map booking_core rows.
Proof.
  unfold update_status_where_id. rewrite map_map. apply map_ext.
  intros b. destruct (_ =? _); reflexivity.
Qed.

Lemma step_extends (db db' : Session) :
  step_ db db' ->
  (exists added, time_slots db' = time_slots db ++ added)
  /\ (exists added, inventory db' = inventory db ++ added)
  /\ (exists added,
        map booking_core (bookings db')
        = map booking_core (bookings db) ++ added)
  /\ map user_core (users db') = map user_core (users db).
Proof.
  intros Hstep.
  destruct Hstep as [db | form_data now db | booking created updated db
                     | booking_id status_update current_user now db Hin
                     | inv current_user db Hin].
  - destruct (fold_seed_appends slots db) as (added & Ht & Hb & Hu & Hi & _).
    unfold init_time_slots. rewrite Hb, Hu, Hi.
    split; [eauto|]. split; [exists []; now rewrite app_nil_r|].
    split; [exists []; now rewrite app_nil_r | reflexivity].
  - destruct (login_frame form_data now db) as (Ht & Hb & Hi).
    fold login_. rewrite Ht, Hb, Hi.
    split; [exists []; now rewrite app_nil_r|].
    split; [exists []; now rewrite app_nil_r|].
    split; [exists []; now rewrite app_nil_r|].
    destruct (login_users verify_password create_access_token
                ACCESS_TOKEN_EXPIRE_MINUTES form_data now db)
      as (stamp & Hus & Hcore).
    unfold login_. rewrite Hus, map_map. now apply map_ext.
  - unfold create_booking.
    destruct (find _ (time_slots db)).
    + destruct (find _ (bookings db)); simpl.
      * repeat (split; [exists []; now rewrite app_nil_r|]). reflexivity.
      * repeat (split; [exists []; now rewrite app_nil_r|]).
        split; [|reflexivity]. eexists. apply map_app.
    + destruct (takes_key _); simpl;
        repeat (split; [exists []; now rewrite app_nil_r|]); reflexivity.
  - unfold update_booking_status. destruct (negb _).
    + simpl. repeat (split; [exists []; now rewrite app_nil_r|]).
      reflexivity.
    + destruct (find _ (bookings db)); [|destruct (takes_key _)]; simpl.
      * rewrite update_status_where_id_core.
        repeat (split; [exists []; now rewrite app_nil_r|]). reflexivity.
      * repeat (split; [exists []; now rewrite app_nil_r|]). reflexivity.
      * repeat (split; [exists []; now rewrite app_nil_r|]). reflexivity.
  - unfold create_inventory_check.
    destruct (negb (str_in _ _)); [|destruct (negb (takes_counts _ _))];
      simpl.
    + repeat (split; [exists []; now rewrite app_nil_r|]). reflexivity.
    + repeat (split; [exists []; now rewrite app_nil_r|]). reflexivity.
    + split; [exists []; now rewrite app_nil_r|]. split; [eauto|].
      split; [exists []; now rewrite app_nil_r | reflexivity].
Qed.

(** X8. No request deletes or rewrites history.  In every store reached
    from [init] the time slots and the inventory rows of [init] are still
    there, unchanged and in front of the rows added since; every booking of
    [init] is still there in its place with the id, customer, date, slot,
    notes and creation time it had (only [status] and [updated_at] can
    differ); and the users are the same rows in id, name, email, password,
    role and last logout (only [last_login] can differ): no user is added
    or removed. *)
Theorem reachable_extends :
  forall init db : Session,
    reachable_ init db ->
    (exists added, time_slots db = time_slots init ++ added)
    /\ (exists added, inventory db = inventory init ++ added)
    /\ (exists added,
          map booking_core (bookings db)
          = map booking_core (bookings init) ++ added)
    /\ map user_core (users db) = map user_core (users init).
Proof.
  intros init db Hreach.
  induction Hreach as [|db db' Hreach IH Hstep].
  - repeat (split; [exists []; now rewrite app_nil_r|]). reflexivity.
  - destruct IH as ([a1 H1] & [a2 H2] & [a3 H3] & H4).
    destruct (step_extends _ _ Hstep)
      as ([b1 G1] & [b2 G2] & [b3 G3] & G4).
    split; [exists (a1 ++ b1); now rewrite G1, H1, app_assoc|].
    split; [exists (a2 ++ b2); now rewrite G2, H2, app_assoc|].
    split; [exists (a3 ++ b3); now rewrite G3, H3, app_assoc|].
    now rewrite G4.
Qed.

(** *** References and status values *)

Lemma value_injective (m1 m2 : schemas.BookingStatus.t) :
  schemas.BookingStatus.value m1 = schemas.BookingStatus.value m2 -> m1 = m2.
Proof.
  destruct m1, m2; simpl; intros H; try reflexivity; discriminate H.
Qed.

Lemma step_keeps_wellformed (db db' : Session) :
  step_ db db' ->
  (forall b, In b (bookings db) ->
     (exists t, Booking_time_slot db b = Some t)
     /\ is_booking_status (models.Booking.status b)) ->
  (forall r, In r (inventory db) -> recorded_by_user db r) ->
  (forall b, In b (bookings db') ->
     (exists t, Booking_time_slot db' b = Some t)
     /\ is_booking_status (models.Booking.status b))
  /\ (forall r, In r (inventory db') -> recorded_by_user db' r).
Proof.
  intros Hstep Hb Hr.
  destruct Hstep as [db | form_data now db | booking created updated db
                     | booking_id status_update current_user now db Hin
                     | inv current_user db Hin].
  - destruct (fold_seed_appends slots db) as (added & Ht & Hbk & Hu & Hi & _).
    unfold init_time_slots. split.
    + intros b Hbin. rewrite Hbk in Hbin.
      destruct (Hb b Hbin) as [[t Hfind] Hst]. split; [|assumption].
      exists t. unfold Booking_time_slot in *. rewrite Ht, find_app.
      now rewrite Hfind.
    + intros r Hrin. rewrite Hi in Hrin.
      destruct (Hr r Hrin) as [u [Hu1 Hu2]]. exists u. rewrite Hu. tauto.
  - destruct (login_frame form_data now db) as (Ht & Hbk & Hi).
    fold login_. split.
    + intros b Hbin. rewrite Hbk in Hbin.
      destruct (Hb b Hbin) as [[t Hfind] Hst]. split; [|assumption].
      exists t. unfold Booking_time_slot in *. now rewrite Ht.
    + intros r Hrin. rewrite Hi in Hrin.
      destruct (Hr r Hrin) as [u [Hu1 Hu2]].
      destruct (login_users verify_password create_access_token
                  ACCESS_TOKEN_EXPIRE_MINUTES form_data now db)
        as (stamp & Hus & Hcore).
      exists (stamp u). unfold login_. rewrite Hus. split.
      * now apply in_map.
      * specialize (Hcore u). unfold user_core in Hcore.
        inversion Hcore. congruence.
  - unfold create_booking.
    destruct (find _ (time_slots db)) as [t|] eqn:Et;
      [|destruct (takes_key _); split; assumption].
    destruct (find _ (bookings db)); [split; assumption|].
    simpl. split; [|exact Hr].
    intros b Hbin. apply in_app_or in Hbin. destruct Hbin as [Hold|[<-|[]]].
    + exact (Hb b Hold).
    + split.
      * exists t. exact Et.
      * exists schemas.BookingStatus.BOOKED. reflexivity.
  - unfold update_booking_status. destruct (negb _); [split; assumption|].
    destruct (find _ (bookings db)) as [booking|];
      [|destruct (takes_key _); split; assumption].
    simpl. split; [|exact Hr].
    intros b Hbin. unfold update_status_where_id in Hbin.
    apply in_map_iff in Hbin. destruct Hbin as [x [Hx Hxin]].
    destruct (Hb x Hxin) as [[t Hfind] Hst].
    destruct (_ =? _); subst b.
    + split; [exists t; exact Hfind | now exists status_update].
    + split; [exists t; exact Hfind | exact Hst].
  - unfold create_inventory_check.
    destruct (negb (str_in _ _)); [split; assumption|].
    destruct (negb (takes_counts _ _)); [split; assumption|].
    simpl. split; [exact Hb|].
    intros r Hrin. apply in_app_or in Hrin. destruct Hrin as [Hold|[<-|[]]].
    + exact (Hr r Hold).
    + exists current_user. split; [exact Hin | reflexivity].
Qed.

Lemma reachable_wellformed (us : list models.User.t) (db : Session) :
  reachable_ (provisioned us) db ->
  (forall b, In b (bookings db) ->
     (exists t, Booking_time_slot db b = Some t)
     /\ is_booking_status (models.Booking.status b))
  /\ (forall r, In r (inventory db) -> recorded_by_user db r).
Proof.
  induction 1 as [|db db' Hreach [IHb IHr] Hstep].
  - split; intros x [].
  - exact (step_keeps_wellformed _ _ Hstep IHb IHr).
Qed.

(** X9. A booking's slot never dangles.  In every store reached from a
    deployment that held only users, each booking's [time_slot_id] is the id
    of a time slot of the store, so the joined [time_slot] of a listed
    booking resolves: [create_booking] checks the slot and no request
    removes or renumbers one. *)
Theorem reachable_bookings_have_slots :
  forall (us : list models.User.t) (db : Session) (b : models.Booking.t),
    reachable_ (provisioned us) db ->
    In b (bookings db) ->
    exists t, Booking_time_slot db b = Some t
              /\ In t (time_slots db)
              /\ models.TimeSlot.id t = models.Booking.time_slot_id b.
Proof.
  intros us db b Hreach Hbin.
  destruct (reachable_wellformed us db Hreach) as [Hb _].
  destruct (Hb b Hbin) as [[t Hfind] _].
  exists t. split; [exact Hfind|]. unfold Booking_time_slot in Hfind.
  apply find_some in Hfind. destruct Hfind as [Hin Hid].
  split; [exact Hin | now apply Z.eqb_eq].
Qed.

(** X13. An inventory row's recorder never dangles.  In every store reached
    from a deployment that held only users, where the [current_user] of an
    admin request is a row of the users table, each inventory row's
    [updated_by] is the id of a user of the store. *)
Theorem reachable_inventory_has_recorder :
  forall (us : list models.User.t) (db : Session) (r : models.Inventory.t),
    reachable_ (provisioned us) db ->
    In r (inventory db) ->
    exists u, In u (users db)
              /\ models.User.id u = models.Inventory.updated_by r.
Proof.
  intros us db r Hreach Hrin.
  destruct (reachable_wellformed us db Hreach) as [_ Hr].
  exact (Hr r Hrin).
Qed.

(** X10. The [status] column is a free string, yet in every store reached
    from a deployment that held only users each booking's status is the
    value of exactly one member of [schemas.BookingStatus]: the insert
    writes the default "Booked" and an update writes the value of the
    member it was given. *)
Theorem reachable_status_values :
  forall (us : list models.User.t) (db : Session) (b : models.Booking.t),
    reachable_ (provisioned us) db ->
    In b (bookings db) ->
    exists m,
      schemas.BookingStatus.value m = models.Booking.status b
      /\ forall m', schemas.BookingStatus.value m' = models.Booking.status b ->
                    m' = m.
Proof.
  intros us db b Hreach Hbin.
  destruct (reachable_wellformed us db Hreach) as [Hb _].
  destruct (Hb b Hbin) as [_ [m Hm]].
  exists m. split; [exact Hm|].
  intros m' Hm'. apply value_injective. congruence.
Qed.

End Histories.

(** * Concrete runs of the further properties *)

(** The sample stores are reached by the program's requests. *)
Lemma audited_reachable
    (verify_password : string -> string -> bool)
    (create_access_token : list (string * string) -> Z -> string)
    (ACCESS_TOKEN_EXPIRE_MINUTES : Z) :
  reachable int64 int64 verify_password create_access_token
    ACCESS_TOKEN_EXPIRE_MINUTES
    (provisioned [admin_user; owner_user; guest_user]) audited.
Proof.
  unfold audited.
  eapply reachable_step;
    [|apply step_create_inventory_check; left; reflexivity].
  unfold booked_again.
  eapply reachable_step; [|apply step_create_booking].
  unfold cancelled_once.
  eapply reachable_step;
    [|apply step_update_booking_status; left; reflexivity].
  unfold booked_once.
  eapply reachable_step; [|apply step_create_booking].
  unfold seeded.
  eapply reachable_step; [|apply step_startup].
  apply reachable_init.
Defined.

(** After the admin records [late_check], the latest of all, on [stocked],
    the owner is shown that row. *)
Lemma latest_after_create_witness :
  In (models.User.role owner_user) staff_roles
  /\ exists row db' latest,
       create_inventory_check int64 late_check admin_user stocked
       = (Ok row, db')
       /\ get_latest_inventory owner_user db' = (Ok latest, db')
       /\ latest = row
       /\ models.Inventory.check_date latest = 739060.
Proof.
  assert (Hview : In (models.User.role owner_user) staff_roles)
    by (right; right; left; reflexivity).
  split; [exact Hview|].
  destruct (latest_after_create int64 late_check admin_user owner_user
              stocked _ _ eq_refl Hview)
    as (latest & Hget & _ & _ & _ & Hnew).
  eexists. eexists. exists latest.
  split; [reflexivity|]. split; [exact Hget|].
  assert (Hrow : latest = new_inventory stocked late_check 1).
  { apply Hnew. intros r [<-|[<-|[<-|[]]]]; reflexivity. }
  split; [exact Hrow|]. rewrite Hrow. reflexivity.
Defined.

(** Booking 1 of [booked_once] is cancelled and its slot is booked again. *)
Lemma status_update_then_create_witness :
  In (models.User.role admin_user) staff_roles
  /\ exists row,
       create_booking int64 booking_request 300 300 cancelled_once
       = (Ok row, add_booking cancelled_once row)
       /\ models.Booking.status row = "Booked".
Proof.
  assert (Hrole : In (models.User.role admin_user) staff_roles)
    by (left; reflexivity).
  split; [exact Hrole|].
  pose proof (status_update_then_create int64 1 schemas.BookingStatus.CANCELLED
                admin_user 200 booked_once
                (new_booking seeded booking_request 100 100)
                booking_request 300 300 Hrole) as H.
  cbv zeta in H.
  destruct H as [_ Hfree].
  - left. reflexivity.
  - reflexivity.
  - exists (models.TimeSlot.mk 1 "Shift 1" "06:00" "07:30" 500000).
    split; [left; reflexivity | reflexivity].
  - reflexivity.
  - reflexivity.
  - destruct Hfree as (row & Hrun & Hst & _).
    + intros [H|[H|[]]]; discriminate H.
    + intros x [<-|[]] Hid. elim Hid. reflexivity.
    + exists row. split; [exact Hrun | exact Hst].
Defined.

(** With slot 1 booked for 1 June, slot 2 of that day is still accepted. *)
Lemma create_booking_independent_witness :
  create_booking int64 booking_request 100 100 seeded
  = (Ok (new_booking seeded booking_request 100 100), booked_once)
  /\ exists r,
       fst (create_booking int64 other_request 150 150 booked_once) = Ok r.
Proof.
  assert (Hrun : create_booking int64 booking_request 100 100 seeded
                 = (Ok (new_booking seeded booking_request 100 100),
                    booked_once)) by reflexivity.
  split; [exact Hrun|].
  destruct (create_booking_independent int64 booking_request other_request
              100 100 150 150 seeded booked_once _ Hrun) as [_ Hok].
  - right. discriminate.
  - apply Hok. eexists. reflexivity.
Defined.

(** Cancelling booking 1 and then setting it to Done leaves what setting it
    to Done at once leaves. *)
Lemma update_booking_status_last_wins_witness :
  In (models.User.role admin_user) staff_roles
  /\ In (models.User.role owner_user) staff_roles
  /\ update_booking_status int64 1 schemas.BookingStatus.DONE owner_user 250
       cancelled_once
     = update_booking_status int64 1 schemas.BookingStatus.DONE owner_user 250
         booked_once.
Proof.
  assert (H1 : In (models.User.role admin_user) staff_roles)
    by (left; reflexivity).
  assert (H2 : In (models.User.role owner_user) staff_roles)
    by (right; right; left; reflexivity).
  split; [exact H1|]. split; [exact H2|].
  exact (update_booking_status_last_wins int64 1 schemas.BookingStatus.CANCELLED
           schemas.BookingStatus.DONE admin_user owner_user 200 250
           booked_once H1 H2).
Defined.

(** The two one-row pages of [booked_again] make its two-row page. *)
Lemma get_all_bookings_pages_tile_witness :
  In (models.User.role admin_user) staff_roles
  /\ 0 <= 0 /\ 0 <= 1 /\ 0 + 1 + 1 < 2 ^ 63
  /\ exists p1 p2,
       get_all_bookings strict_window (Some 0) (Some 1) admin_user booked_again
       = (Ok p1, booked_again)
       /\ get_all_bookings strict_window (Some 1) (Some 1) admin_user
            booked_again = (Ok p2, booked_again)
       /\ get_all_bookings strict_window (Some 0) (Some 2) admin_user
            booked_again = (Ok (p1 ++ p2), booked_again).
Proof.
  assert (Hrole : In (models.User.role admin_user) staff_roles)
    by (left; reflexivity).
  assert (H0 : 0 <= 0) by discriminate.
  assert (H1 : 0 <= 1) by discriminate.
  assert (Hfits : 0 + 1 + 1 < 2 ^ 63) by reflexivity.
  split; [exact Hrole|]. split; [exact H0|]. split; [exact H1|].
  split; [exact Hfits|].
  destruct (get_all_bookings_pages_tile strict_window admin_user booked_again
              0 1 1 Hrole H0 H1 H1 Hfits) as (p1 & p2 & Ha & Hb & Hc & _).
  exists p1, p2. split; [exact Ha|]. split; [exact Hb | exact Hc].
Defined.

(** On the way to [audited] the three users stayed who they were. *)
Lemma reachable_extends_witness :
  reachable int64 int64 sample_verify_password sample_create_access_token 30
    (provisioned [admin_user; owner_user; guest_user]) audited
  /\ map user_core (users audited)
     = map user_core [admin_user; owner_user; guest_user].
Proof.
  pose proof (audited_reachable sample_verify_password
                sample_create_access_token 30) as Hreach.
  split; [exact Hreach|].
  destruct (reachable_extends int64 int64 sample_verify_password
              sample_create_access_token 30 _ _ Hreach) as (_ & _ & _ & Hu).
  exact Hu.
Defined.

(** The second booking of [audited] joins to slot 1. *)
Lemma reachable_bookings_have_slots_witness :
  In (new_booking cancelled_once booking_request 300 300) (bookings audited)
  /\ exists t,
       Booking_time_slot audited
         (new_booking cancelled_once booking_request 300 300) = Some t
       /\ In t (time_slots audited)
       /\ models.TimeSlot.id t = 1.
Proof.
  assert (Hin : In (new_booking cancelled_once booking_request 300 300)
                   (bookings audited)) by (right; left; reflexivity).
  split; [exact Hin|].
  exact (reachable_bookings_have_slots int64 int64 sample_verify_password
           sample_create_access_token 30 _ audited _
           (audited_reachable _ _ _) Hin).
Defined.

(** The cancelled booking of [audited] carries the value of one member. *)
Lemma reachable_status_values_witness :
  In (models.Booking.set_status (new_booking seeded booking_request 100 100)
        "Cancelled" 200) (bookings audited)
  /\ exists m,
       schemas.BookingStatus.value m = "Cancelled"
       /\ forall m', schemas.BookingStatus.value m' = "Cancelled" -> m' = m.
Proof.
  assert (Hin : In (models.Booking.set_status
                      (new_booking seeded booking_request 100 100)
                      "Cancelled" 200) (bookings audited))
    by (left; reflexivity).
  split; [exact Hin|].
  exact (reachable_status_values int64 int64 sample_verify_password
           sample_create_access_token 30 _ audited _
           (audited_reachable _ _ _) Hin).
Defined.

(** The check of [audited] was recorded by a user of [audited]. *)
Lemma reachable_inventory_has_recorder_witness :
  In (new_inventory booked_again late_check 1) (inventory audited)
  /\ exists u, In u (users audited) /\ models.User.id u = 1.
Proof.
  assert (Hin : In (new_inventory booked_again late_check 1)
                   (inventory audited)) by (left; reflexivity).
  split; [exact Hin|].
  exact (reachable_inventory_has_recorder int64 int64 sample_verify_password
           sample_create_access_token 30 _ audited _
           (audited_reachable _ _ _) Hin).
Defined.

(** [booked_once] has no double booking, and neither has what a refused
    second request or a cancellation leaves. *)
Lemma invariant_kept_without_reactivation_witness :
  no_double_booking (bookings booked_once) = true
  /\ no_double_booking
       (bookings (snd (create_booking int64 booking_request 300 300
                         booked_once)))
     = true
  /\ no_double_booking (bookings cancelled_once) = true.
Proof.
  assert (Hinv : no_double_booking (bookings booked_once) = true)
    by reflexivity.
  split; [exact Hinv|].
  destruct (invariant_kept_without_reactivation int64 booked_once Hinv)
    as [Hcreate Hupdate].
  split; [apply Hcreate|].
  apply (Hupdate 1 schemas.BookingStatus.CANCELLED admin_user 200).
  intros [H|[H|[]]]; discriminate H.
Defined.

(** The booking accepted on [seeded] is what the admin then lists. *)
Lemma created_booking_is_listed_witness :
  In (models.User.role admin_user) staff_roles
  /\ Z.of_nat (List.length (bookings booked_once)) < 2 ^ 63
  /\ get_all_bookings strict_window (Some 0) (Some 1) admin_user booked_once
     = (Ok [new_booking seeded booking_request 100 100], booked_once).
Proof.
  assert (Hrole : In (models.User.role admin_user) staff_roles)
    by (left; reflexivity).
  assert (Hfits : Z.of_nat (List.length (bookings booked_once)) < 2 ^ 63)
    by reflexivity.
  split; [exact Hrole|]. split; [exact Hfits|].
  exact (proj1 (created_booking_is_listed int64 strict_window booking_request
                  100 100 admin_user seeded booked_once _ eq_refl Hrole
                  Hfits)).
Defined.

(** The booking accepted on [seeded] is set to Deposit Paid by its id. *)
Lemma created_booking_is_updatable_witness :
  In (models.User.role admin_user) staff_roles
  /\ exists db'',
       update_booking_status int64 1 schemas.BookingStatus.DEPOSIT_PAID
         admin_user 200 booked_once
       = (Ok "Booking status updated successfully", db'')
       /\ In (models.Booking.set_status
                (new_booking seeded booking_request 100 100)
                "Deposit Paid" 200) (bookings db'').
Proof.
  assert (Hrole : In (models.User.role admin_user) staff_roles)
    by (left; reflexivity).
  split; [exact Hrole|].
  destruct (created_booking_is_updatable int64 booking_request 100 100
              schemas.BookingStatus.DEPOSIT_PAID admin_user 200 seeded
              booked_once _ eq_refl Hrole) as (db'' & Hrun & Hin & _).
  exists db''. split; [exact Hrun | exact Hin].
Defined.
